(** * Shoe Zone controller: store locator, stock checker, product scraper

    A shallow embedding of the controller (locateStore, checkStoreStock,
    fetchWebpage, abbreviateOffer, getProductInfo), of the HttpError class
    and of the status mapping of the router, with the properties the
    specification states about them.

    Strings are sequences of code units; the case maps of the embedding act
    on the ASCII letters and leave every other code unit as it is. *)

From Stdlib Require Import ZArith QArith Qround Qabs Lqa Ascii String DecimalString List Lia.
From stdpp Require Import base option gmap strings.

Open Scope string_scope.
Open Scope Z_scope.

(** ** Characters and JavaScript string primitives *)

Module JsString.

Definition code (c : ascii) : N := N_of_ascii c.

Definition is_upper (c : ascii) : bool := (65 <=? code c)%N && (code c <=? 90)%N.
Definition is_lower (c : ascii) : bool := (97 <=? code c)%N && (code c <=? 122)%N.
Definition is_digit (c : ascii) : bool := (48 <=? code c)%N && (code c <=? 57)%N.
Definition is_letter (c : ascii) : bool := is_upper c || is_lower c.

(** The character class [A-Z0-9] under the flag i. *)
Definition is_alnum (c : ascii) : bool := is_letter c || is_digit c.

(** White space and line terminators, as String.prototype.trim sees them
    among the code units below 256. *)
Definition is_space (c : ascii) : bool :=
  ((9 <=? code c)%N && (code c <=? 13)%N) || (code c =? 32)%N || (code c =? 160)%N.

Definition upper_char (c : ascii) : ascii :=
  if is_lower c then ascii_of_N (code c - 32) else c.
Definition lower_char (c : ascii) : ascii :=
  if is_upper c then ascii_of_N (code c + 32) else c.

Fixpoint map_chars (f : ascii -> ascii) (s : string) : string :=
  match s with
  | EmptyString => EmptyString
  | String c s' => String (f c) (map_chars f s')
  end.

Fixpoint filter_chars (p : ascii -> bool) (s : string) : string :=
  match s with
  | EmptyString => EmptyString
  | String c s' => if p c then String c (filter_chars p s') else filter_chars p s'
  end.

Fixpoint all_chars (p : ascii -> bool) (s : string) : bool :=
  match s with
  | EmptyString => true
  | String c s' => p c && all_chars p s'
  end.

Definition toUpperCase : string -> string := map_chars upper_char.
Definition toLowerCase : string -> string := map_chars lower_char.

Fixpoint trimStart (s : string) : string :=
  match s with
  | String c s' => if is_space c then trimStart s' else s
  | EmptyString => EmptyString
  end.

(** [trimEnd] drops the trailing white space: a character stays when it is
    not white space or when something stays after it. *)
Fixpoint trimEnd (s : string) : string :=
  match s with
  | EmptyString => EmptyString
  | String c s' =>
      match trimEnd s' with
      | EmptyString => if is_space c then EmptyString else String c EmptyString
      | t => String c t
      end
  end.

Definition trim (s : string) : string := trimEnd (trimStart s).

(** [split_on sep s] is [s.split(re)] for a regular expression [re] that
    matches exactly one character of the class [sep]: the pieces between
    the separators, the empty ones included. *)
Fixpoint split_on (sep : ascii -> bool) (s : string) : list string :=
  match s with
  | EmptyString => [EmptyString]
  | String c s' =>
      if sep c then EmptyString :: split_on sep s'
      else match split_on sep s' with
           | [] => [String c EmptyString]
           | w :: ws => String c w :: ws
           end
  end.

(** [Array.prototype.join] on an array of strings. *)
Fixpoint join (sep : string) (l : list string) : string :=
  match l with
  | [] => EmptyString
  | [w] => w
  | w :: ws => w ++ sep ++ join sep ws
  end.

Definition is_blank (c : ascii) : bool := (code c =? 32)%N.

(** [s.indexOf(" ") === -1] *)
Definition no_blank (s : string) : bool := all_chars (fun c => negb (is_blank c)) s.

(** [s.substr(0, n)] for [0 <= n]. *)
Fixpoint take (n : nat) (s : string) : string :=
  match n, s with
  | S n', String c s' => String c (take n' s')
  | _, _ => EmptyString
  end.

Fixpoint drop (n : nat) (s : string) : string :=
  match n, s with
  | S n', String _ s' => drop n' s'
  | _, _ => s
  end.

(** [s.substr(-n)]: the last [n] characters, the whole string when it is
    shorter. *)
Definition last_chars (n : nat) (s : string) : string :=
  drop (String.length s - n) s.

End JsString.

Import JsString.

(** ** Errors and results *)

(** The values a promise of the controller is rejected with. [HttpError]
    is the class of utils/HttpError.js (message, statusCode, date);
    [JsError] is [new Error(message)]; [TypeError] is what a property
    access on [null] or [undefined] throws; [UpstreamFailure] stands for
    a rejection of the transport; [CacheIOFailure] is the error of the file
    system when the write of a cache file fails (it has a message and no
    status code). *)
Inductive js_error : Type :=
  | HttpError (message : string) (statusCode : Z) (date : Z)
  | JsError (message : string)
  | TypeError
  | UpstreamFailure (message : string)
  | CacheIOFailure (message : string).

Inductive outcome (A : Type) : Type :=
  | Return (a : A)
  | Throw (e : js_error).
Arguments Return {A} a.
Arguments Throw {A} e.

Definition obind {A B} (x : outcome A) (f : A -> outcome B) : outcome B :=
  match x with
  | Return a => f a
  | Throw e => Throw e
  end.

Fixpoint omap {A B} (f : A -> outcome B) (l : list A) : outcome (list B) :=
  match l with
  | [] => Return []
  | a :: l' =>
      obind (f a) (fun b => obind (omap f l') (fun bs => Return (b :: bs)))
  end.

(** ** abbreviateOffer *)

(** The callback of [map] in abbreviateOffer: [word[0]] is [undefined] on
    the empty word, and calling [toUpperCase] on it throws. *)
Definition abbreviateWord (word : string) : outcome string :=
  if String.eqb (toLowerCase word) "for" then Return "-4-"
  else match word with
       | EmptyString => Throw TypeError
       | String c rest =>
           Return (String (upper_char c)
                     (filter_chars (fun x => negb (is_letter x)) rest))
       end.

Definition offerWords (offer : string) : list string :=
  List.filter (fun word => negb (String.eqb word ""))
         (split_on (fun c => negb (is_alnum c)) offer).

Definition abbreviateOffer (offer : string) : outcome string :=
  if no_blank (trim offer) then Return (toUpperCase offer)
  else obind (omap abbreviateWord (offerWords offer))
             (fun parts => Return (join "" parts)).

(** The pound sign, one code unit. *)
Definition pound : string := String (ascii_of_N 163) EmptyString.

(** ** Numbers and values *)

(** A Number: every finite double is a rational, and [toFixed] is defined
    on the exact value. *)
Inductive number : Type :=
  | NaN
  | Infinity (negative : bool)
  | Finite (q : Q).

Definition number_truthy (n : number) : bool :=
  match n with
  | NaN => false
  | Infinity _ => true
  | Finite q => negb (Qeq_bool q 0%Q)
  end.

(** Values as JSON.parse and the query string deliver them. *)
#[warnings="-register-all"]
Inductive jsval : Type :=
  | JUndefined
  | JNull
  | JBool (b : bool)
  | JNum (n : number)
  | JStr (s : string)
  | JArr (items : list jsval)
  | JObj (fields : list (string * jsval)).

Definition truthy (v : jsval) : bool :=
  match v with
  | JUndefined | JNull => false
  | JBool b => b
  | JNum n => number_truthy n
  | JStr s => negb (String.eqb s "")
  | JArr _ | JObj _ => true
  end.

Definition is_undefined (v : jsval) : bool :=
  match v with JUndefined => true | _ => false end.

Fixpoint assoc (name : string) (fields : list (string * jsval)) : option jsval :=
  match fields with
  | [] => None
  | (k, v) :: rest => if String.eqb k name then Some v else assoc name rest
  end.

(** [v.name] for the names the controller reads, none of which a built-in
    prototype defines: the own property of an object, [undefined] on any
    other value, a TypeError on [null] and [undefined]. *)
Definition get_prop (v : jsval) (name : string) : outcome jsval :=
  match v with
  | JUndefined | JNull => Throw TypeError
  | JObj fields => Return (default JUndefined (assoc name fields))
  | _ => Return JUndefined
  end.

(** [v[0]] *)
Definition get_index0 (v : jsval) : outcome jsval :=
  match v with
  | JUndefined | JNull => Throw TypeError
  | JArr items => Return (hd JUndefined items)
  | JStr (String c _) => Return (JStr (String c EmptyString))
  | JObj fields => Return (default JUndefined (assoc "0" fields))
  | _ => Return JUndefined
  end.

(** A method of String.prototype called on a value: only a string has it. *)
Definition as_string (v : jsval) : outcome string :=
  match v with
  | JStr s => Return s
  | _ => Throw TypeError
  end.

(** *** Number.prototype.toFixed(2) *)

Definition digits (n : Z) : string := NilZero.string_of_uint (N.to_uint (Z.to_N n)).

Definition pad3 (m : string) : string :=
  match String.length m with
  | 0%nat => "000" | 1%nat => "00" ++ m | 2%nat => "0" ++ m | _ => m
  end.

(** The integer [n] for which [n / 100 - x] is closest to zero, the larger
    one of two. *)
Definition hundredths (x : Q) : Z := Qfloor (x * 100 + (1 # 2))%Q.

Definition fixed2 (x : Q) : string :=
  let m := pad3 (digits (hundredths (Qabs x))) in
  let k := String.length m in
  (if Qle_bool 0%Q x then "" else "-") ++ take (k - 2) m ++ "." ++ drop (k - 2) m.

(** ** Records of the data model *)

Module Store.
Record t : Type := mk {
  storeName : string;
  storeId : number;
  storeAddress : string;
  storePhone : string
}.
End Store.

Module StockCheckResult.
Record t : Type := mk {
  inStock : jsval;
  storeName : jsval;
  storeId : jsval;
  storeAddress : jsval
}.
End StockCheckResult.

Module SizeEntry.
Record t : Type := mk {
  size : string;
  stock_warehouse : number;
  code : string
}.
End SizeEntry.

Module Offer.
Record t : Type := mk {
  name : string;
  image : option string;
  abbr : string
}.
End Offer.

Module Product.
Record t : Type := mk {
  id : number;
  name : string;
  price_current : number;
  currency : string;
  thumbnail : option string;
  categories : list string;
  sizeRange : list SizeEntry.t;
  offers : list Offer.t
}.
End Product.

(** What the selectors of getProductInfo find in a product page. An
    [option] is the result of [querySelector] ([None] for [null]), an inner
    [option] the result of [getAttribute]. *)
Module Dom.
Record size_li : Type := mk_li {
  li_textContent : string;
  li_data_id : string;
  li_data_qty : string
}.
Record badge : Type := mk_badge {
  a_title : string;
  a_img_src : option (option string)
}.
Record document : Type := mk {
  sku_textContent : option string;
  name_textContent : option string;
  price_content : option (option string);
  priceCurrency_content : option (option string);
  main_image_src : option (option string);
  breadcrumbs : list string;
  size_selector : list size_li;
  offer_badges : list badge
}.
End Dom.

(** The value stored under a key of the page cache. *)
Record page_entry : Type := mk_entry {
  timestamp : Z;
  value : Product.t
}.

(** The bodies of the two POST requests, by their interpolated fields. *)
Inductive request : Type :=
  | FindRequestedStores (Town PostCode Latitude Longitude : string)
      (StartDistance NumberOfStores : Z)
  | StoreStockAjaxRequest (_prod_CCStoreNo _prod_SizeId _prod_Qty
      _prod_hasStockInWH _prod_Action : string).

Inductive domain : Type := Locator | Products.

(** What an operation does to the outside, in order. *)
Inductive event : Type :=
  | EvGetKey (d : domain) (key : string)
  | EvSetKey (d : domain) (key : string)
  | EvSave (d : domain)
  | EvPost (url : string) (body : request)
  | EvFromURL (url : string)
  | EvClock.

Definition is_cache_event (e : event) : bool :=
  match e with
  | EvGetKey _ _ | EvSetKey _ _ | EvSave _ => true
  | _ => false
  end.

Definition is_upstream_event (e : event) : bool :=
  match e with
  | EvPost _ _ | EvFromURL _ => true
  | _ => false
  end.

(** The two cache domains, each with its content in memory and the content
    its file was last written from (the file holds the JSON text of that
    content), and the events so far (the latest first). *)
Record world : Type := mk_world {
  locator : gmap string Store.t;
  locator_file : gmap string Store.t;
  products : gmap string page_entry;
  products_file : gmap string page_entry;
  trace : list event
}.

Definition caches_of (w : world) :=
  (locator w, locator_file w, products w, products_file w).

Definition log (e : event) (w : world) : world :=
  mk_world (locator w) (locator_file w) (products w) (products_file w)
           (e :: trace w).

(** ** The router's status *)

(** [err.statusCode || 500] *)
Definition response_status (e : js_error) : Z :=
  match e with
  | HttpError _ statusCode _ => if statusCode =? 0 then 500 else statusCode
  | _ => 500
  end.

(** [err.message]; the text of a TypeError is the engine's and is left
    out. *)
Definition error_message (e : js_error) : option string :=
  match e with
  | HttpError m _ _ | JsError m | UpstreamFailure m | CacheIOFailure m => Some m
  | TypeError => None
  end.

(** ** The state of the controller *)

(** An operation runs on a world and ends in a value or a thrown error. *)
Definition M (A : Type) : Type := world -> outcome A * world.

Definition ret {A} (a : A) : M A := fun w => (Return a, w).
Definition throw {A} (e : js_error) : M A := fun w => (Throw e, w).
Definition bind {A B} (m : M A) (k : A -> M B) : M B :=
  fun w => match m w with
           | (Return a, w') => k a w'
           | (Throw e, w') => (Throw e, w')
           end.
Definition lift {A} (x : outcome A) : M A := fun w => (x, w).

Notation "'let*' x ':=' m 'in' k" := (bind m (fun x => k))
  (at level 10, x name, m at level 100, k at level 200).

(** The parts of the language and of the environment the controller rests
    on: the conversions of the language that are not spelled out here, the
    two environment strings, the clock, the answers of the upstream site,
    and the file system under the cache files. An answer depends on the
    request and on the number of events before it; the answer to a POST is
    the payload after both decoding steps, or the error the chain is
    rejected with; the answer to the write of a cache file is the message
    of the error when the write fails. *)
Record environment : Type := mk_environment {
  env_StringToNumber : string -> number;
  env_NumberToString : number -> string;
  env_ObjectToString : jsval -> string;
  env_ObjectToNumber : jsval -> number;
  env_SZAPI : string;
  env_SZSITE : string;
  env_clock : nat -> Z;
  env_upstream_post : nat -> string -> request -> outcome jsval;
  env_upstream_page : nat -> string -> outcome Dom.document;
  env_write_error : nat -> domain -> option string
}.

Module Cache.

(** flat-cache: [getKey], [setKey] (overwrites) and [save(true)], which
    writes the whole content to the file, pruning nothing; the write is
    synchronous and throws when it fails, the content in memory staying as
    it is. *)
Definition getKey_locator (key : string) : M (option Store.t) :=
  fun w => (Return (locator w !! key), log (EvGetKey Locator key) w).

Definition setKey_locator (key : string) (v : Store.t) : M unit :=
  fun w => (Return tt,
            mk_world (<[key := v]> (locator w)) (locator_file w)
                     (products w) (products_file w)
                     (EvSetKey Locator key :: trace w)).

Definition save_locator (E : environment) : M unit :=
  fun w =>
    match env_write_error E (List.length (trace w)) Locator with
    | Some message => (Throw (CacheIOFailure message), log (EvSave Locator) w)
    | None =>
        (Return tt,
         mk_world (locator w) (locator w) (products w) (products_file w)
                  (EvSave Locator :: trace w))
    end.

Definition getKey_products (key : string) : M (option page_entry) :=
  fun w => (Return (products w !! key), log (EvGetKey Products key) w).

Definition setKey_products (key : string) (v : page_entry) : M unit :=
  fun w => (Return tt,
            mk_world (locator w) (locator_file w)
                     (<[key := v]> (products w)) (products_file w)
                     (EvSetKey Products key :: trace w)).

Definition save_products (E : environment) : M unit :=
  fun w =>
    match env_write_error E (List.length (trace w)) Products with
    | Some message => (Throw (CacheIOFailure message), log (EvSave Products) w)
    | None =>
        (Return tt,
         mk_world (locator w) (locator_file w) (products w) (products w)
                  (EvSave Products :: trace w))
    end.

End Cache.

(** What [fetchWebpage] resolves with: the cached value, or the live page
    with the [setCache] callback. *)
Inductive fetched : Type :=
  | FromCache (result : Product.t)
  | Live (result : Dom.document) (setCache : Product.t -> M unit).

Section Controller.

Variable E : environment.

Local Abbreviation StringToNumber := (env_StringToNumber E).
Local Abbreviation NumberToString := (env_NumberToString E).
Local Abbreviation ObjectToString := (env_ObjectToString E).
Local Abbreviation ObjectToNumber := (env_ObjectToNumber E).
Local Abbreviation SZAPI := (env_SZAPI E).
Local Abbreviation SZSITE := (env_SZSITE E).
Local Abbreviation clock := (env_clock E).
Local Abbreviation upstream_post := (env_upstream_post E).
Local Abbreviation upstream_page := (env_upstream_page E).

(** [Number(v)] *)
Definition ToNumber (v : jsval) : number :=
  match v with
  | JUndefined => NaN
  | JNull => Finite 0
  | JBool b => Finite (if b then 1 else 0)
  | JNum n => n
  | JStr s => StringToNumber s
  | JArr _ | JObj _ => ObjectToNumber v
  end.

(** [String(v)] *)
Definition ToString (v : jsval) : string :=
  match v with
  | JUndefined => "undefined"
  | JNull => "null"
  | JBool b => if b then "true" else "false"
  | JNum n => NumberToString n
  | JStr s => s
  | JArr _ | JObj _ => ObjectToString v
  end.

(** [n || 0] *)
Definition or_zero (n : number) : number :=
  if number_truthy n then n else Finite 0.

(** [n.toFixed(2)]: a value of magnitude [10^21] or more is printed as
    [String(n)]. *)
Definition toFixed2 (n : number) : string :=
  match n with
  | NaN => "NaN"
  | Infinity negative => if negative then "-Infinity" else "Infinity"
  | Finite q =>
      if Qle_bool (inject_Z (10 ^ 21)) (Qabs q) then NumberToString n
      else fixed2 q
  end.

Definition Date_now : M Z :=
  fun w => (Return (clock (List.length (trace w))), log EvClock w).

Definition axios_post (url : string) (body : request) : M jsval :=
  fun w => (upstream_post (List.length (trace w)) url body, log (EvPost url body) w).

Definition JSDOM_fromURL (url : string) : M Dom.document :=
  fun w => (upstream_page (List.length (trace w)) url, log (EvFromURL url) w).

(** *** locateStore *)

Definition is_null (v : jsval) : bool :=
  match v with JNull => true | _ => false end.

Definition cacheKey_near (lat lon : string) (city postcode : jsval) : string :=
  "near:" ++
  join "," (map (fun v => toLowerCase (ToString v))
                (List.filter (fun v => negb (is_undefined v))
                             [JStr lat; JStr lon; city; postcode])).

(** The interpolations of the request body: [city || ""] and
    [postcode ? postcode.split(" ").join("").toUpperCase() : ""]. *)
Definition Town_of (city : jsval) : string :=
  if truthy city then ToString city else "".

Definition PostCode_of (postcode : jsval) : outcome string :=
  if truthy postcode then
    obind (as_string postcode)
          (fun s => Return (toUpperCase (join "" (split_on is_blank s))))
  else Return "".

(** [word[0].toUpperCase()] followed by [word.substr(1)] *)
Definition titleWord (word : string) : outcome string :=
  match word with
  | EmptyString => Throw TypeError
  | String c rest => Return (String (upper_char c) rest)
  end.

(** The Store record made of the first candidate. *)
Definition toStore (data : jsval) : outcome Store.t :=
  obind (get_prop data "DisplayLine1") (fun DisplayLine1 =>
  obind (as_string DisplayLine1) (fun line =>
  obind (omap titleWord (split_on is_blank (toLowerCase line))) (fun words =>
  obind (get_prop data "Key") (fun Key =>
  obind (get_prop data "Property") (fun Property =>
  obind (get_prop data "Street") (fun Street =>
  obind (get_prop data "PostCode") (fun PostCode =>
  obind (get_prop data "Telephone") (fun Telephone =>
  obind (as_string Telephone) (fun phone =>
  Return (Store.mk (join " " words)
                   (ToNumber Key)
                   (ToString Property ++ ", " ++ ToString Street ++ ", "
                      ++ ToString PostCode)
                   (join "" (split_on is_blank phone)))))))))))).

(** A cached Store is an object, hence truthy. An error thrown while the
    request body is built and a rejection of the promise chain both end the
    call with [Throw]. *)
Definition locateStore (lat lon city postcode : jsval) : M Store.t :=
  let lat := toFixed2 (or_zero (ToNumber lat)) in
  let lon := toFixed2 (or_zero (ToNumber lon)) in
  let cacheKey := cacheKey_near lat lon city postcode in
  let* cachedValue := Cache.getKey_locator cacheKey in
  match cachedValue with
  | Some store => ret store
  | None =>
      let* PostCode := lift (PostCode_of postcode) in
      let* payload :=
        axios_post (SZAPI ++ "/StoreLocator.aspx/FindRequestedStores")
                   (FindRequestedStores (Town_of city) PostCode lat lon 0 1) in
      let* Stores := lift (get_prop payload "Stores") in
      let* ErrorMsg := lift (get_prop payload "ErrorMsg") in
      let* first :=
        (if is_null Stores && truthy ErrorMsg then
           let* date := Date_now in
           throw (HttpError (ToString ErrorMsg) 400 date)
         else lift (get_index0 Stores)) in
      let* data := lift (toStore first) in
      let* _ := Cache.setKey_locator cacheKey data in
      let* _ := Cache.save_locator E in
      ret data
  end.

(** *** checkStoreStock *)

(** The default of the parameter, [quantity = 1]. *)
Definition quantity_default (quantity : jsval) : jsval :=
  if is_undefined quantity then JNum (Finite 1) else quantity.

(** [quantity || 1] *)
Definition quantity_or_one (quantity : jsval) : jsval :=
  if truthy quantity then quantity else JNum (Finite 1).

Definition checkStoreStock (styleCode size storeId quantity : jsval)
  : M StockCheckResult.t :=
  let quantity := quantity_default quantity in
  let* payload :=
    axios_post (SZAPI ++ "/Product.aspx/StoreStockAjaxRequest")
               (StoreStockAjaxRequest (ToString storeId)
                  (ToString styleCode ++ ToString size)
                  (ToString (quantity_or_one quantity))
                  "true" "getStoreStock") in
  let* field := lift (get_prop payload "_prod_sNo_Stock") in
  let* data :=
    (if truthy field then ret field
     else throw (JsError "Product unavailable")) in
  let* HasStock := lift (get_prop data "HasStock") in
  let* StoreName := lift (get_prop data "StoreName") in
  let* StoreNo := lift (get_prop data "StoreNo") in
  let* StoreAddress := lift (get_prop data "StoreAddress") in
  ret (StockCheckResult.mk HasStock StoreName StoreNo StoreAddress).

(** *** fetchWebpage *)

Definition cacheKey_page (pathname : string) : string :=
  "page@sz:" ++ toLowerCase pathname.

(** The callback [setCache] of [fetchWebpage]. *)
Definition setCache_of (cacheKey : string) (cacheTTL : Z) (v : Product.t)
  : M unit :=
  if cacheTTL =? 0 then ret tt
  else
    let* now := Date_now in
    let* _ := Cache.setKey_products cacheKey (mk_entry now v) in
    Cache.save_products E.

Definition fetchLive (pathname cacheKey : string) (cacheTTL : Z) : M fetched :=
  let* jsdom := JSDOM_fromURL (SZSITE ++ pathname) in
  ret (Live jsdom (setCache_of cacheKey cacheTTL)).

(** A falsy [cacheTTL] is [0]; the clock is read only for an entry with a
    truthy timestamp. *)
Definition fetchWebpage (pathname : string) (cacheTTL : Z) : M fetched :=
  let cacheKey := cacheKey_page pathname in
  if cacheTTL =? 0 then fetchLive pathname cacheKey cacheTTL
  else
    let* cachedValue := Cache.getKey_products cacheKey in
    match cachedValue with
    | Some entry =>
        if timestamp entry =? 0 then fetchLive pathname cacheKey cacheTTL
        else
          let* now := Date_now in
          if now - timestamp entry <? cacheTTL
          then ret (FromCache (value entry))
          else fetchLive pathname cacheKey cacheTTL
    | None => fetchLive pathname cacheKey cacheTTL
    end.

(** *** getProductInfo *)

(** A method called on the result of [querySelector] or [getAttribute]
    throws when that result is [null]. *)
Definition non_null {A} (o : option A) : outcome A :=
  match o with
  | Some a => Return a
  | None => Throw TypeError
  end.

(** [Number(el.getAttribute(..))] *)
Definition Number_of_attribute (a : option string) : number :=
  ToNumber (match a with Some s => JStr s | None => JNull end).

Definition ignoredOffers : list string := ["memory foam"].

(** [ignoredOffers.includes(x)] *)
Definition includes (l : list string) (x : string) : bool :=
  existsb (String.eqb x) l.

Definition toSizeEntry (li : Dom.size_li) : SizeEntry.t :=
  SizeEntry.mk (toUpperCase (trim (Dom.li_textContent li)))
               (StringToNumber (Dom.li_data_qty li))
               (last_chars 3 (trim (Dom.li_data_id li))).

Definition toOffer (b : Dom.badge) : outcome Offer.t :=
  obind (non_null (Dom.a_img_src b)) (fun src =>
  obind (abbreviateOffer (Dom.a_title b)) (fun abbr =>
  Return (Offer.mk (trim (Dom.a_title b)) src abbr))).

Definition kept (o : Offer.t) : bool :=
  negb (includes ignoredOffers (toLowerCase (Offer.name o))).

Definition parseProduct (dom : Dom.document) : outcome Product.t :=
  obind (non_null (Dom.sku_textContent dom)) (fun sku =>
  obind (non_null (Dom.name_textContent dom)) (fun name =>
  obind (non_null (Dom.price_content dom)) (fun price =>
  obind (non_null (Dom.priceCurrency_content dom)) (fun currency_attr =>
  obind (non_null currency_attr) (fun currency =>
  obind (non_null (Dom.main_image_src dom)) (fun src =>
  obind (omap toOffer (Dom.offer_badges dom)) (fun offers =>
  Return (Product.mk (StringToNumber sku)
                     (trim name)
                     (Number_of_attribute price)
                     (toUpperCase (trim currency))
                     src
                     (map trim (Dom.breadcrumbs dom))
                     (map toSizeEntry (Dom.size_selector dom))
                     (List.filter kept offers))))))))).

(** A code of eight characters or more carries a size code: its last three
    characters are dropped. *)
Definition baseStyleCode (styleCode : string) : string :=
  if 5 <=? Z.of_nat (String.length styleCode) - 3
  then take (String.length styleCode - 3) styleCode
  else styleCode.

Definition productPath (styleCode : string) : string :=
  "/Products/Product-" ++ baseStyleCode styleCode.

Definition getProductInfo (styleCode : string) (storeId : jsval) : M Product.t :=
  let* page := fetchWebpage (productPath styleCode) 60000 in
  match page with
  | FromCache product => ret product
  | Live jsdom setCache =>
      let* productInfo := lift (parseProduct jsdom) in
      let* _ := setCache productInfo in
      ret productInfo
  end.

End Controller.

(** ** The router *)

(** [Math.max(1, n)] and [Math.floor(n)] on a Number. *)
Definition Math_max_1 (n : number) : number :=
  match n with
  | NaN => NaN
  | Infinity negative => if negative then Finite 1 else n
  | Finite q => if Qle_bool q 1 then Finite 1 else n
  end.

Definition Math_floor (n : number) : number :=
  match n with
  | Finite q => Finite (inject_Z (Qfloor q))
  | _ => n
  end.

(** What a route answers: the status, and the envelope [{ ok, result }],
    whose [result] is the record or the message of the error. *)
Inductive response (A : Type) : Type :=
  | Answer (status : Z) (ok : bool) (result : A)
  | Failure (status : Z) (ok : bool) (result : option string).
Arguments Answer {A} status ok result.
Arguments Failure {A} status ok result.

(** The [then] and [catch] handlers every route ends with. *)
Definition respond {A} (x : outcome A) : response A :=
  match x with
  | Return a => Answer 200 true a
  | Throw e => Failure (response_status e) false (error_message e)
  end.

Section Routes.

Variable E : environment.

(** GET /locate *)
Definition locateRoute (city postcode lat lon : jsval) : M Store.t :=
  locateStore E lat lon city postcode.

(** [quantity = Math.floor(Math.max(1, quantity))] *)
Definition routeQuantity (quantity : jsval) : number :=
  Math_floor (Math_max_1 (ToNumber E quantity)).

(** GET /stock/:storeId/:styleCode *)
Definition stockRoute (storeId styleCode : string) (quantity : jsval)
  : M StockCheckResult.t :=
  checkStoreStock E (JStr (take 5 styleCode)) (JStr (last_chars 3 styleCode))
    (JStr storeId) (JNum (routeQuantity quantity)).

(** GET /product/:styleCode *)
Definition productRoute (styleCode : string) : M Product.t :=
  getProductInfo E styleCode JUndefined.

End Routes.

(** *** routes/index.js *)

Record dirent : Type := mk_dirent {
  d_name : string;
  d_isFile : bool
}.

Definition is_dot (c : ascii) : bool := (code c =? 46)%N.

(** The name a directory entry is mounted under: for a file, the name
    split at the dots, without its last piece, joined again. *)
Definition routeName (file : dirent) : string :=
  if d_isFile file
  then join "." (removelast (split_on is_dot (d_name file)))
  else d_name file.

(** The mount points, as pairs of the route and the module required. *)
Definition mountPoints (files : list dirent) : list (string * string) :=
  map (fun file => ("/" ++ routeName file, d_name file))
      (List.filter (fun file => negb (String.eqb (d_name file) "index.js")) files).

(** ** Reference definitions for the statements below *)

(** The segment a word of an offer contributes: ["-4-"] for the word "for"
    in any case, otherwise the first character in upper case followed by
    the digits of the rest. *)
Definition segment (word : string) : string :=
  if String.eqb (toLowerCase word) "for" then "-4-"
  else match word with
       | EmptyString => EmptyString
       | String c rest => String (upper_char c) (filter_chars is_digit rest)
       end.

(** The token rule in the words of the specification: after the first
    character, only the upper-case letters are removed. *)
Definition segment_spec (word : string) : string :=
  if String.eqb (toLowerCase word) "for" then "-4-"
  else match word with
       | EmptyString => EmptyString
       | String c rest =>
           String (upper_char c) (filter_chars (fun x => negb (is_upper x)) rest)
       end.

Definition abbreviateOffer_spec (offer : string) : string :=
  join "" (map segment_spec (offerWords offer)).

(** The request of checkStoreStock and the reply it gets in a world. *)
Definition stock_url (E : environment) : string :=
  env_SZAPI E ++ "/Product.aspx/StoreStockAjaxRequest".

Definition stock_request (E : environment) (styleCode size storeId quantity : jsval)
  : request :=
  StoreStockAjaxRequest (ToString E storeId)
    (ToString E styleCode ++ ToString E size)
    (ToString E (quantity_or_one (quantity_default quantity)))
    "true" "getStoreStock".

Definition stock_reply (E : environment) (styleCode size storeId quantity : jsval)
  (w : world) : outcome jsval :=
  env_upstream_post E (List.length (trace w)) (stock_url E)
    (stock_request E styleCode size storeId quantity).

(** The own property of an object, when there is one. *)
Definition field_of (v : jsval) (name : string) : option jsval :=
  match v with
  | JObj fields => assoc name fields
  | _ => None
  end.

(** The key, the request and the reply of locateStore in a world; the
    request follows the look-up in the cache. *)
Definition locate_coordinate (E : environment) (v : jsval) : string :=
  toFixed2 E (or_zero (ToNumber E v)).

Definition locate_key (E : environment) (lat lon city postcode : jsval) : string :=
  cacheKey_near E (locate_coordinate E lat) (locate_coordinate E lon) city postcode.

Definition locate_url (E : environment) : string :=
  env_SZAPI E ++ "/StoreLocator.aspx/FindRequestedStores".

Definition locate_request (E : environment) (lat lon city : jsval)
  (PostCode : string) : request :=
  FindRequestedStores (Town_of E city) PostCode
    (locate_coordinate E lat) (locate_coordinate E lon) 0 1.

Definition locate_reply (E : environment) (lat lon city : jsval)
  (PostCode : string) (w : world) : outcome jsval :=
  env_upstream_post E (S (List.length (trace w))) (locate_url E)
    (locate_request E lat lon city PostCode).

(** The part of a key a field contributes: nothing when [undefined]. *)
Definition key_part (E : environment) (v : jsval) : list string :=
  if is_undefined v then [] else [toLowerCase (ToString E v)].

Definition empty_world : world := mk_world ∅ ∅ ∅ ∅ [].

(** A concrete environment around given upstream answers, for the
    examples. *)
Fixpoint decimal_value (acc : Z) (s : string) : Z :=
  match s with
  | EmptyString => acc
  | String c s' => decimal_value (10 * acc + (Z.of_N (code c) - 48)) s'
  end.

(** A reader of unsigned decimal integers, enough for the examples. *)
Definition example_StringToNumber (s : string) : number :=
  match s with
  | EmptyString => Finite 0
  | _ => if all_chars is_digit s then Finite (inject_Z (decimal_value 0 s)) else NaN
  end.

Definition example_environment
  (post : nat -> string -> request -> outcome jsval)
  (page : nat -> string -> outcome Dom.document) : environment :=
  mk_environment example_StringToNumber (fun _ => "") (fun _ => "[object Object]")
    (fun _ => NaN) "https://www.shoezone.com" "https://www.shoezone.com"
    (fun n => 1595000000000 + 5000 * Z.of_nat n) post page (fun _ _ => None).

Definition no_post : nat -> string -> request -> outcome jsval :=
  fun _ _ _ => Throw (UpstreamFailure "Network Error").
Definition no_page : nat -> string -> outcome Dom.document :=
  fun _ _ => Throw (UpstreamFailure "Network Error").

(** The key and the address of a product page, and the live path of
    getProductInfo from a world on: fetch, parse, write to the cache. *)
Definition page_key (styleCode : string) : string :=
  cacheKey_page (productPath styleCode).

Definition page_url (E : environment) (styleCode : string) : string :=
  env_SZSITE E ++ productPath styleCode.

Definition page_reply (E : environment) (styleCode : string) (w : world)
  : outcome Dom.document :=
  env_upstream_page E (List.length (trace w)) (page_url E styleCode).

Definition live_product (E : environment) (styleCode : string) (w : world)
  : outcome Product.t * world :=
  let w1 := log (EvFromURL (page_url E styleCode)) w in
  match obind (page_reply E styleCode w) (parseProduct E) with
  | Throw e => (Throw e, w1)
  | Return product =>
      let entry := mk_entry (env_clock E (List.length (trace w1))) product in
      let written := <[page_key styleCode := entry]> (products w) in
      let events := EvSave Products :: EvSetKey Products (page_key styleCode)
                      :: EvClock :: trace w1 in
      match env_write_error E (S (S (List.length (trace w1)))) Products with
      | Some message =>
          (Throw (CacheIOFailure message),
           mk_world (locator w) (locator_file w) written (products_file w) events)
      | None =>
          (Return product,
           mk_world (locator w) (locator_file w) written written events)
      end
  end.

Definition example_store : Store.t :=
  Store.mk "Gloucester" (Finite 1649) "12 Eastgate Street, Gloucester, GL1 1PA"
           "01452123456".

(** The same environment with another clock. *)
Definition with_clock (c : nat -> Z) (E : environment) : environment :=
  mk_environment (env_StringToNumber E) (env_NumberToString E)
    (env_ObjectToString E) (env_ObjectToNumber E) (env_SZAPI E) (env_SZSITE E)
    c (env_upstream_post E) (env_upstream_page E) (env_write_error E).

(** The same environment with a file system where the writes that [f]
    names fail. *)
Definition with_write_error (f : nat -> domain -> option string)
  (E : environment) : environment :=
  mk_environment (env_StringToNumber E) (env_NumberToString E)
    (env_ObjectToString E) (env_ObjectToNumber E) (env_SZAPI E) (env_SZSITE E)
    (env_clock E) (env_upstream_post E) (env_upstream_page E) f.

Definition disk_full : nat -> domain -> option string :=
  fun _ _ => Some "ENOSPC: no space left on device".

Definition found_payload : jsval :=
  JObj [("Stores",
         JArr [JObj [("DisplayLine1", JStr "GLOUCESTER EASTGATE");
                     ("Key", JStr "1649");
                     ("Property", JStr "12 Eastgate Street");
                     ("Street", JStr "Gloucester");
                     ("PostCode", JStr "GL1 1PA");
                     ("Telephone", JStr "01452 123 456")]]);
        ("ErrorMsg", JStr "")].

Definition found_store : Store.t :=
  Store.mk "Gloucester Eastgate" (Finite 1649)
           "12 Eastgate Street, Gloucester, GL1 1PA" "01452123456".

Definition in_stock_payload : jsval :=
  JObj [("_prod_sNo_Stock",
         JObj [("HasStock", JBool true); ("StoreName", JStr "Gloucester");
               ("StoreNo", JNum (Finite 1649));
               ("StoreAddress", JStr "12 Eastgate Street")])].

Definition example_lat : jsval := JNum (Finite (515 # 10)).
Definition example_lon : jsval := JNum (Finite (-1 # 10)).

Definition not_found_payload : jsval :=
  JObj [("Stores", JNull); ("ErrorMsg", JStr "No stores found")].

Definition null_stores_payload : jsval :=
  JObj [("Stores", JNull); ("ErrorMsg", JStr "")].

Definition null_stock_payload : jsval := JObj [("_prod_sNo_Stock", JNull)].

Definition example_page : Dom.document :=
  Dom.mk (Some "15070") (Some " Mens Black Lace Up Shoe ")
         (Some (Some "1999")) (Some (Some " gbp ")) (Some (Some "/images/15070.jpg"))
         ["Mens"; " Shoes "]
         [Dom.mk_li " 7 " "size-15070040" "12"]
         [Dom.mk_badge "Memory Foam" (Some (Some "/badges/mf.png"));
          Dom.mk_badge "Memory Foam Insoles" (Some (Some "/badges/mfi.png"));
          Dom.mk_badge "Buy One Get One Free" (Some (Some "/badges/bogof.png"))].

Definition example_product : Product.t :=
  Product.mk (Finite 15070) "Mens Black Lace Up Shoe" (Finite 1999) "GBP"
             (Some "/images/15070.jpg") ["Mens"; "Shoes"]
             [SizeEntry.mk "7" (Finite 12) "040"]
             [Offer.mk "Memory Foam Insoles" (Some "/badges/mfi.png") "MFI";
              Offer.mk "Buy One Get One Free" (Some "/badges/bogof.png") "BOGOF"].

(** The events of a run from [w] to [w'], the latest first. *)
Definition events_since (w w' : world) : list event :=
  firstn (List.length (trace w') - List.length (trace w)) (trace w').

(** The world after [n] calls of checkStoreStock in a row. *)
Fixpoint checkStoreStock_repeated (E : environment)
  (styleCode size storeId quantity : jsval) (n : nat) (w : world) : world :=
  match n with
  | O => w
  | S n' =>
      checkStoreStock_repeated E styleCode size storeId quantity n'
        (snd (checkStoreStock E styleCode size storeId quantity w))
  end.

(** No offer of the product has an ignored name; no product of the page
    cache has such an offer. *)
Definition offers_clean (p : Product.t) : Prop :=
  forall o, In o (Product.offers p) ->
            ~ In (toLowerCase (Offer.name o)) ignoredOffers.

Definition cache_clean (w : world) : Prop :=
  forall k entry, products w !! k = Some entry -> offers_clean (value entry).

Definition no_space (s : string) : bool :=
  all_chars (fun c => negb (is_space c)) s.

(** The characters an abbreviation of several words is made of. *)
Definition is_abbreviation_char (c : ascii) : bool :=
  is_upper c || is_digit c || (code c =? 45)%N.

Definition no_lower (s : string) : bool :=
  all_chars (fun c => negb (is_lower c)) s.

Definition no_upper (s : string) : bool :=
  all_chars (fun c => negb (is_upper c)) s.

(** A page has what getProductInfo reads without a guard: the five
    elements, the attribute of the currency, and an image in every badge. *)
Definition page_complete (dom : Dom.document) : bool :=
  match Dom.sku_textContent dom, Dom.name_textContent dom, Dom.price_content dom,
        Dom.priceCurrency_content dom, Dom.main_image_src dom with
  | Some _, Some _, Some _, Some (Some _), Some _ =>
      forallb (fun b => match Dom.a_img_src b with Some _ => true | None => false end)
              (Dom.offer_badges dom)
  | _, _, _, _, _ => false
  end.

(** The abbreviation as a total function, the offer of a badge with an
    image, and the badges the ignore-list lets through. *)
Definition abbreviation (offer : string) : string :=
  if no_blank (trim offer) then toUpperCase offer
  else join "" (map segment (offerWords offer)).

Definition has_image (b : Dom.badge) : bool :=
  match Dom.a_img_src b with Some _ => true | None => false end.

Definition offerOf (b : Dom.badge) : Offer.t :=
  Offer.mk (trim (Dom.a_title b))
           (match Dom.a_img_src b with Some src => src | None => None end)
           (abbreviation (Dom.a_title b)).

Definition badge_kept (b : Dom.badge) : bool :=
  negb (includes ignoredOffers (toLowerCase (trim (Dom.a_title b)))).

(** The number of requests to the upstream site among some events. *)
Definition upstream_count (t : list event) : nat :=
  List.length (List.filter is_upstream_event t).

(** The cache domain an event belongs to, if any. *)
Definition event_domain (e : event) : option domain :=
  match e with
  | EvGetKey d _ | EvSetKey d _ | EvSave d => Some d
  | _ => None
  end.

(** A string of ASCII characters: on these the case maps of the embedding
    are those of the language. *)
Definition is_ascii_string (s : string) : bool :=
  all_chars (fun c => (code c <? 128)%N) s.

(** ** Strings: facts about the primitives *)

Section StringFacts.

Lemma all_chars_impl (p q : ascii -> bool) (s : string) :
  (forall c, p c = true -> q c = true) ->
  all_chars p s = true -> all_chars q s = true.
Proof.
  intros Hpq. induction s as [|c s IH]; simpl; [reflexivity|].
  rewrite !andb_true_iff. intros [Hc Hs]. split; auto.
Qed.

Lemma blank_is_space (c : ascii) : is_blank c = true -> is_space c = true.
Proof.
  unfold is_blank, is_space. intros ->. rewrite orb_true_r. reflexivity.
Qed.

Lemma no_space_no_blank (s : string) : no_space s = true -> no_blank s = true.
Proof.
  apply all_chars_impl. intros c Hc.
  destruct (is_blank c) eqn:Hb; [|reflexivity].
  apply blank_is_space in Hb. rewrite Hb in Hc. discriminate.
Qed.

Lemma letter_not_digit (c : ascii) : is_letter c = true -> is_digit c = false.
Proof.
  unfold is_letter, is_upper, is_lower, is_digit.
  rewrite orb_true_iff, !andb_true_iff, andb_false_iff, !N.leb_le, !N.leb_gt.
  lia.
Qed.

Lemma alnum_cases (c : ascii) :
  is_alnum c = true -> negb (is_letter c) = is_digit c.
Proof.
  unfold is_alnum. destruct (is_letter c) eqn:Hl; simpl.
  - intros _. symmetry. apply letter_not_digit, Hl.
  - intros ->. reflexivity.
Qed.

Lemma filter_chars_ext (p q : ascii -> bool) (r : ascii -> bool) (s : string) :
  (forall c, r c = true -> p c = q c) ->
  all_chars r s = true -> filter_chars p s = filter_chars q s.
Proof.
  intros Hpq. induction s as [|c s IH]; simpl; [reflexivity|].
  rewrite andb_true_iff. intros [Hc Hs].
  rewrite (Hpq c Hc), (IH Hs). reflexivity.
Qed.

Lemma split_on_nonempty (sep : ascii -> bool) (s : string) :
  split_on sep s <> [].
Proof.
  destruct s as [|c s]; simpl; [discriminate|].
  destruct (sep c); [discriminate|].
  destruct (split_on sep s); discriminate.
Qed.

(** No piece of a split contains a separator. *)
Lemma split_on_pieces (sep : ascii -> bool) (s : string) :
  Forall (fun w => all_chars (fun c => negb (sep c)) w = true) (split_on sep s).
Proof.
  induction s as [|c s IH]; simpl.
  - constructor; [reflexivity|constructor].
  - destruct (sep c) eqn:Hc.
    + constructor; [reflexivity|exact IH].
    + destruct (split_on sep s) as [|w ws].
      * constructor; [simpl; rewrite Hc; reflexivity|constructor].
      * inversion IH as [|? ? Hw Hws]; subst.
        constructor; [simpl; rewrite Hc, Hw; reflexivity|exact Hws].
Qed.

Lemma offerWords_alnum (offer : string) :
  Forall (fun w => w <> "" /\ all_chars is_alnum w = true) (offerWords offer).
Proof.
  unfold offerWords. apply List.Forall_forall. intros w Hw.
  apply filter_In in Hw. destruct Hw as [Hin Hne]. split.
  - intros ->. discriminate.
  - pose proof (split_on_pieces (fun c => negb (is_alnum c)) offer) as H.
    rewrite List.Forall_forall in H. specialize (H w Hin).
    revert H. apply all_chars_impl. intros c. rewrite negb_involutive. auto.
Qed.

Lemma abbreviateWord_segment (w : string) :
  w <> "" -> all_chars is_alnum w = true -> abbreviateWord w = Return (segment w).
Proof.
  intros Hne Hal. unfold abbreviateWord, segment.
  destruct (String.eqb (toLowerCase w) "for"); [reflexivity|].
  destruct w as [|c rest]; [congruence|].
  simpl in Hal. apply andb_true_iff in Hal. destruct Hal as [_ Hrest].
  f_equal. f_equal.
  apply (filter_chars_ext _ _ is_alnum); [|exact Hrest].
  intros x Hx. apply alnum_cases, Hx.
Qed.

Lemma omap_abbreviateWord (ws : list string) :
  Forall (fun w => w <> "" /\ all_chars is_alnum w = true) ws ->
  omap abbreviateWord ws = Return (map segment ws).
Proof.
  induction 1 as [|w ws [Hne Hal] _ IH]; simpl; [reflexivity|].
  rewrite (abbreviateWord_segment w Hne Hal). simpl. rewrite IH. reflexivity.
Qed.

End StringFacts.

(** ** abbreviateOffer *)

(** The abbreviation never throws: the words it maps over are not empty. *)
Lemma abbreviateOffer_total (offer : string) :
  exists abbr, abbreviateOffer offer = Return abbr.
Proof.
  unfold abbreviateOffer. destruct (no_blank (trim offer)); [eauto|].
  rewrite (omap_abbreviateWord _ (offerWords_alnum offer)). simpl. eauto.
Qed.

(** C2, as amended: for an offer whose trimmed form contains a blank, the
    words are the maximal runs of letters and digits, none of them empty;
    the word "for" in any case gives "-4-", every other word gives its
    first character in upper case followed by the digits among its
    remaining characters (all letters of the rest are removed, the
    lower-case ones too); the segments are joined with no separator. *)
Theorem abbreviateOffer_multi_word (offer : string) :
  no_blank (trim offer) = false ->
  Forall (fun w => w <> "" /\ all_chars is_alnum w = true) (offerWords offer) /\
  (forall w, toLowerCase w = "for" -> segment w = "-4-") /\
  (forall c rest, toLowerCase (String c rest) <> "for" ->
     segment (String c rest) = String (upper_char c) (filter_chars is_digit rest)) /\
  abbreviateOffer offer = Return (join "" (map segment (offerWords offer))).
Proof.
  intros Hmulti. split; [apply offerWords_alnum|]. split; [|split].
  - intros w Hw. unfold segment. rewrite Hw. reflexivity.
  - intros c rest Hw. unfold segment.
    destruct (String.eqb_spec (toLowerCase (String c rest)) "for"); [contradiction|].
    reflexivity.
  - unfold abbreviateOffer. rewrite Hmulti.
    rewrite (omap_abbreviateWord _ (offerWords_alnum offer)). reflexivity.
Qed.

Lemma abbreviateOffer_multi_word_witness :
  no_blank (trim "Buy One Get One Free") = false /\
  abbreviateOffer "Buy One Get One Free"
  = Return (join "" (map segment (offerWords "Buy One Get One Free"))).
Proof.
  split; [reflexivity|].
  apply (abbreviateOffer_multi_word "Buy One Get One Free"). reflexivity.
Defined.

(** C2, as stated, fails: on "Buy One" the rule of the specification keeps
    the lower-case letters and gives "BuyOne", the code gives "BO". *)
Lemma abbreviateOffer_drops_lower_case :
  no_blank (trim "Buy One") = false /\
  abbreviateOffer_spec "Buy One" = "BuyOne" /\
  abbreviateOffer "Buy One" = Return "BO" /\
  abbreviateOffer "Buy One" <> Return (abbreviateOffer_spec "Buy One").
Proof.
  repeat split; try reflexivity. vm_compute. discriminate.
Qed.

(** C3: the three examples of the specification, and an offer whose
    trimmed form contains no white space is returned in upper case,
    otherwise unchanged. *)
Theorem abbreviateOffer_examples :
  abbreviateOffer "Buy One Get One Free" = Return "BOGOF" /\
  abbreviateOffer ("2 For " ++ pound ++ "10") = Return "2-4-10" /\
  abbreviateOffer "Save" = Return "SAVE" /\
  (forall offer, no_space (trim offer) = true ->
     abbreviateOffer offer = Return (toUpperCase offer)).
Proof.
  repeat split; try reflexivity.
  intros offer Hws. unfold abbreviateOffer.
  rewrite (no_space_no_blank _ Hws). reflexivity.
Qed.

Lemma abbreviateOffer_examples_witness :
  no_space (trim " Save ") = true /\ abbreviateOffer " Save " = Return " SAVE ".
Proof.
  split; [reflexivity|].
  apply (proj2 (proj2 (proj2 abbreviateOffer_examples)) " Save "). reflexivity.
Defined.

(** ** The controller: auxiliary facts *)

Lemma take_length (n : nat) (s : string) :
  String.length (take n s) = Nat.min n (String.length s).
Proof.
  revert s. induction n as [|n IH]; intros [|c s]; simpl; auto.
Qed.


Lemma events_since_app (w w' : world) (evs : list event) :
  trace w' = (evs ++ trace w)%list -> events_since w w' = evs.
Proof.
  intros H. unfold events_since. rewrite H, length_app.
  replace (List.length evs + List.length (trace w) - List.length (trace w))%nat
    with (List.length evs + 0)%nat by lia.
  rewrite firstn_app_2. simpl. apply app_nil_r.
Qed.

(** ** checkStoreStock *)

Section StockFacts.

Variable E : environment.
Variables styleCode size storeId quantity : jsval.

Let r (w : world) := checkStoreStock E styleCode size storeId quantity w.

Lemma checkStoreStock_run (w : world) :
  r w =
  (match stock_reply E styleCode size storeId quantity w with
   | Throw e => Throw e
   | Return payload =>
       match get_prop payload "_prod_sNo_Stock" with
       | Throw e => Throw e
       | Return field =>
           if truthy field then
             Return (StockCheckResult.mk
                       (default JUndefined (field_of field "HasStock"))
                       (default JUndefined (field_of field "StoreName"))
                       (default JUndefined (field_of field "StoreNo"))
                       (default JUndefined (field_of field "StoreAddress")))
           else Throw (JsError "Product unavailable")
       end
   end,
   log (EvPost (stock_url E) (stock_request E styleCode size storeId quantity)) w).
Proof.
  unfold r, checkStoreStock, stock_reply, bind, axios_post, lift, ret, throw.
  fold (stock_url E). fold (stock_request E styleCode size storeId quantity).
  destruct (env_upstream_post E _ _ _) as [payload|e]; [|reflexivity].
  destruct (get_prop payload "_prod_sNo_Stock") as [field|e]; [|reflexivity].
  destruct (truthy field) eqn:Ht; [|reflexivity].
  destruct field as [| |b|n|s|items|fields]; simpl in Ht; try discriminate;
    reflexivity.
Qed.

Lemma checkStoreStock_repeated_caches (n : nat) (w : world) :
  caches_of (checkStoreStock_repeated E styleCode size storeId quantity n w)
  = caches_of w.
Proof.
  revert w. induction n as [|n IH]; intros w; simpl; [reflexivity|].
  rewrite IH. fold (r w). rewrite checkStoreStock_run. reflexivity.
Qed.

(** C8: checkStoreStock reads and writes no cache. Whatever the arguments
    and the world, the two cache domains (memory and file) are the same
    after the call as before, also after any number of calls in a row; the
    only event of the call is the request to the upstream site, so no
    event of the call is a cache event; and the result is the same in any
    world that gets the same upstream reply, whatever its caches hold. *)
Theorem checkStoreStock_no_cache (w : world) :
  caches_of (snd (r w)) = caches_of w /\
  (forall n, caches_of (checkStoreStock_repeated E styleCode size storeId quantity n w)
             = caches_of w) /\
  events_since w (snd (r w))
  = [EvPost (stock_url E) (stock_request E styleCode size storeId quantity)] /\
  existsb is_cache_event (events_since w (snd (r w))) = false /\
  (forall w2, stock_reply E styleCode size storeId quantity w2
              = stock_reply E styleCode size storeId quantity w ->
              fst (r w2) = fst (r w)).
Proof.
  assert (events_since w (snd (r w))
          = [EvPost (stock_url E) (stock_request E styleCode size storeId quantity)])
    as Hev.
  { apply events_since_app. rewrite checkStoreStock_run. reflexivity. }
  split; [rewrite checkStoreStock_run; reflexivity|].
  split; [intros n; apply checkStoreStock_repeated_caches|].
  split; [exact Hev|]. split; [rewrite Hev; reflexivity|].
  intros w2 Hreply. rewrite !checkStoreStock_run. simpl. rewrite Hreply. reflexivity.
Qed.

(** C9, as amended: when the decoded payload is not [null], the call
    returns a StockCheckResult exactly when the value of the field
    _prod_sNo_Stock is truthy; when the field is absent, or present with a
    falsy value, the call fails with the plain error "Product unavailable",
    which carries no status code, so that the router answers 500. *)
Theorem checkStoreStock_unavailable (w : world) (payload field : jsval) :
  stock_reply E styleCode size storeId quantity w = Return payload ->
  get_prop payload "_prod_sNo_Stock" = Return field ->
  (truthy field = false ->
     fst (r w) = Throw (JsError "Product unavailable") /\
     response_status (JsError "Product unavailable") = 500 /\
     error_message (JsError "Product unavailable") = Some "Product unavailable") /\
  (forall fields, payload = JObj fields -> assoc "_prod_sNo_Stock" fields = None ->
     fst (r w) = Throw (JsError "Product unavailable")) /\
  ((exists result, fst (r w) = Return result) <-> truthy field = true).
Proof.
  intros Hreply Hfield. rewrite checkStoreStock_run. simpl.
  rewrite Hreply, Hfield. split; [|split; [|split]].
  - intros ->. repeat split.
  - intros fields -> Hnone. simpl in Hfield. rewrite Hnone in Hfield.
    injection Hfield as <-. reflexivity.
  - intros [result Hres]. destruct (truthy field); [reflexivity|discriminate].
  - intros ->. eauto.
Qed.

End StockFacts.

(** ** locateStore *)

Section LocatorFacts.

Variable E : environment.
Variables lat lon city postcode : jsval.

Let r (w : world) := locateStore E lat lon city postcode w.
Let key := locate_key E lat lon city postcode.

Lemma obind_Throw {A B} (x : outcome A) (f : A -> outcome B) (e : js_error) :
  obind x f = Throw e ->
  x = Throw e \/ exists a, x = Return a /\ f a = Throw e.
Proof. destruct x as [a|e']; simpl; intros H; [right; eauto|left; congruence]. Qed.

Lemma get_prop_Throw (v : jsval) (name : string) (e : js_error) :
  get_prop v name = Throw e -> e = TypeError.
Proof. destruct v; simpl; congruence. Qed.

Lemma get_index0_Throw (v : jsval) (e : js_error) :
  get_index0 v = Throw e -> e = TypeError.
Proof. destruct v as [| | | |[|c s]| |]; simpl; congruence. Qed.

Lemma as_string_Throw (v : jsval) (e : js_error) :
  as_string v = Throw e -> e = TypeError.
Proof. destruct v; simpl; congruence. Qed.

Lemma omap_titleWord_Throw (ws : list string) (e : js_error) :
  omap titleWord ws = Throw e -> e = TypeError.
Proof.
  induction ws as [|w ws IH]; simpl; [discriminate|].
  destruct w as [|c rest]; simpl; [congruence|].
  destruct (omap titleWord ws); simpl; [discriminate|auto].
Qed.

(** Building the Store record fails with a TypeError only. *)
Lemma toStore_Throw (data : jsval) (e : js_error) :
  toStore E data = Throw e -> e = TypeError.
Proof.
  unfold toStore. intros H.
  repeat (apply obind_Throw in H;
          destruct H as [H|[? [_ H]]];
          [first [ exact (get_prop_Throw _ _ _ H)
                 | exact (as_string_Throw _ _ H)
                 | exact (omap_titleWord_Throw _ _ H) ]|]).
  discriminate.
Qed.

Lemma locateStore_hit (w : world) (store : Store.t) :
  locator w !! key = Some store ->
  r w = (Return store, log (EvGetKey Locator key) w).
Proof.
  intros Hhit. unfold r, locateStore, bind, Cache.getKey_locator, ret.
  fold (locate_coordinate E lat). fold (locate_coordinate E lon).
  fold (locate_key E lat lon city postcode). fold key. rewrite Hhit. reflexivity.
Qed.

(** The call after a miss, once the request has been answered with an
    object. *)
Lemma locateStore_miss (w : world) (PostCode : string) (fields : list (string * jsval)) :
  locator w !! key = None ->
  PostCode_of postcode = Return PostCode ->
  locate_reply E lat lon city PostCode w = Return (JObj fields) ->
  let Stores := default JUndefined (assoc "Stores" fields) in
  let ErrorMsg := default JUndefined (assoc "ErrorMsg" fields) in
  let w1 := log (EvPost (locate_url E) (locate_request E lat lon city PostCode))
                (log (EvGetKey Locator key) w) in
  r w =
  if is_null Stores && truthy ErrorMsg then
    (Throw (HttpError (ToString E ErrorMsg) 400 (env_clock E (List.length (trace w1)))),
     log EvClock w1)
  else
    match obind (get_index0 Stores) (toStore E) with
    | Throw e => (Throw e, w1)
    | Return data =>
        match env_write_error E (S (S (S (List.length (trace w))))) Locator with
        | Some message =>
            (Throw (CacheIOFailure message),
             mk_world (<[key := data]> (locator w)) (locator_file w)
                      (products w) (products_file w)
                      (EvSave Locator :: EvSetKey Locator key :: trace w1))
        | None =>
            (Return data,
             mk_world (<[key := data]> (locator w)) (<[key := data]> (locator w))
                      (products w) (products_file w)
                      (EvSave Locator :: EvSetKey Locator key :: trace w1))
        end
    end.
Proof.
  intros Hmiss Hpc Hreply Stores ErrorMsg w1.
  unfold r, locateStore, bind, Cache.getKey_locator, ret, lift, axios_post.
  fold (locate_coordinate E lat). fold (locate_coordinate E lon).
  fold (locate_key E lat lon city postcode). fold key. rewrite Hmiss, Hpc.
  fold (locate_url E). fold (locate_request E lat lon city PostCode).
  simpl. unfold locate_reply in Hreply. rewrite Hreply. simpl.
  fold Stores. fold ErrorMsg.
  destruct (is_null Stores && truthy ErrorMsg); [reflexivity|].
  unfold lift. destruct (get_index0 Stores) as [first|e]; simpl; [|reflexivity].
  destruct (toStore E first) as [data|e]; [|reflexivity].
  unfold Cache.save_locator. simpl.
  destruct (env_write_error E _ Locator); reflexivity.
Qed.

(** C5: after a miss in the cache, a decoded payload with [Stores] equal
    to [null] and a non-empty [ErrorMsg] makes the call fail with an
    HttpError of status 400 whose message is that [ErrorMsg]; the router
    answers 400; no Store is returned, and the cache is left as it was (no
    setKey and no save takes place). *)
Theorem locateStore_not_found (w : world) (PostCode msg : string)
  (fields : list (string * jsval)) :
  locator w !! key = None ->
  PostCode_of postcode = Return PostCode ->
  locate_reply E lat lon city PostCode w = Return (JObj fields) ->
  assoc "Stores" fields = Some JNull ->
  assoc "ErrorMsg" fields = Some (JStr msg) ->
  msg <> "" ->
  exists date,
    fst (r w) = Throw (HttpError msg 400 date) /\
    response_status (HttpError msg 400 date) = 400 /\
    error_message (HttpError msg 400 date) = Some msg /\
    caches_of (snd (r w)) = caches_of w /\
    events_since w (snd (r w))
    = [EvClock; EvPost (locate_url E) (locate_request E lat lon city PostCode);
       EvGetKey Locator key].
Proof.
  intros Hmiss Hpc Hreply HStores HMsg Hne.
  rewrite (locateStore_miss w PostCode fields Hmiss Hpc Hreply).
  rewrite HStores, HMsg. simpl.
  destruct (String.eqb_spec msg ""); [contradiction|]. simpl.
  eexists. split; [reflexivity|]. split; [reflexivity|]. split; [reflexivity|].
  split; [reflexivity|]. apply events_since_app. reflexivity.
Qed.

(** C10: after a miss in the cache, a decoded payload with [Stores] equal
    to [null] and an empty or absent [ErrorMsg] does not take the guarded
    branch: reading [Stores[0]] throws a TypeError, which has no status
    code, so the router answers 500 and not 400, and nothing is cached.
    The HttpError of status 400 is thrown only when [Stores] is [null] and
    [ErrorMsg] is truthy. *)
Theorem locateStore_null_stores_without_message (w : world) (PostCode : string)
  (fields : list (string * jsval)) :
  locator w !! key = None ->
  PostCode_of postcode = Return PostCode ->
  locate_reply E lat lon city PostCode w = Return (JObj fields) ->
  (assoc "Stores" fields = Some JNull ->
   truthy (default JUndefined (assoc "ErrorMsg" fields)) = false ->
     fst (r w) = Throw TypeError /\
     response_status TypeError = 500 /\
     caches_of (snd (r w)) = caches_of w) /\
  (forall m c d, fst (r w) = Throw (HttpError m c d) ->
     assoc "Stores" fields = Some JNull /\
     truthy (default JUndefined (assoc "ErrorMsg" fields)) = true /\
     c = 400).
Proof.
  intros Hmiss Hpc Hreply.
  rewrite (locateStore_miss w PostCode fields Hmiss Hpc Hreply). split.
  - intros HStores Hfalsy. rewrite HStores, Hfalsy. simpl. repeat split.
  - intros m c d.
    destruct (is_null (default JUndefined (assoc "Stores" fields))
              && truthy (default JUndefined (assoc "ErrorMsg" fields))) eqn:Hguard.
    + simpl. intros [= _ <- _]. apply andb_true_iff in Hguard.
      destruct Hguard as [Hnull Htruthy]. repeat split; [|exact Htruthy].
      destruct (assoc "Stores" fields) as [[]|]; simpl in Hnull;
        try discriminate; reflexivity.
    + destruct (obind _ _) as [data|e] eqn:Hchain; simpl;
        [destruct (env_write_error E _ Locator); discriminate|].
      intros [= ->]. apply obind_Throw in Hchain.
      destruct Hchain as [H|[first [_ H]]].
      * apply get_index0_Throw in H. discriminate.
      * apply toStore_Throw in H. discriminate.
Qed.

End LocatorFacts.

(** ** The key of the locator cache *)

Section KeyFacts.

Variable E : environment.

Lemma Qfloor_between (q : Q) (n : Z) :
  (inject_Z n <= q)%Q -> (q < inject_Z (n + 1))%Q -> Qfloor q = n.
Proof.
  intros Hlo Hhi.
  pose proof (Qfloor_le q) as Hf1. pose proof (Qlt_floor q) as Hf2.
  assert (Qfloor q < n + 1) as H1.
  { rewrite Zlt_Qlt. eapply Qle_lt_trans; eassumption. }
  assert (n < Qfloor q + 1) as H2.
  { rewrite Zlt_Qlt. eapply Qle_lt_trans; eassumption. }
  lia.
Qed.

(** A value from 51.495 up to, but not including, 51.505 prints as 51.50. *)
Lemma fixed2_51_50 (x : Q) :
  (10299 # 2 <= x * 100)%Q -> (x * 100 < 10301 # 2)%Q -> fixed2 x = "51.50".
Proof.
  intros Hlo Hhi. unfold fixed2, hundredths.
  assert (0 <= x)%Q as Hpos by lra.
  assert (Qfloor (Qabs x * 100 + (1 # 2)) = 5150) as ->.
  { apply Qfloor_between; rewrite (Qabs_pos x Hpos);
      [change (inject_Z 5150) with (5150 # 1)%Q
      |change (inject_Z (5150 + 1)) with (5151 # 1)%Q]; lra. }
  apply Qle_bool_iff in Hpos. rewrite Hpos. reflexivity.
Qed.

(** A value above -0.105 and up to -0.095 prints as -0.10. *)
Lemma fixed2_minus_0_10 (y : Q) :
  (-21 # 2 < y * 100)%Q -> (y * 100 <= -19 # 2)%Q -> fixed2 y = "-0.10".
Proof.
  intros Hlo Hhi. unfold fixed2, hundredths.
  assert (y <= 0)%Q as Hneg by lra.
  assert (Qfloor (Qabs y * 100 + (1 # 2)) = 10) as ->.
  { apply Qfloor_between; rewrite (Qabs_neg y Hneg);
      [change (inject_Z 10) with (10 # 1)%Q
      |change (inject_Z (10 + 1)) with (11 # 1)%Q]; lra. }
  destruct (Qle_bool 0 y) eqn:Hb; [|reflexivity].
  apply Qle_bool_iff in Hb. lra.
Qed.

Lemma toFixed2_small (q : Q) :
  (-1000 < q)%Q -> (q < 1000)%Q -> ~ (q == 0)%Q ->
  toFixed2 E (or_zero (Finite q)) = fixed2 q.
Proof.
  intros Hlo Hhi Hnz. unfold or_zero, number_truthy.
  destruct (Qeq_bool q 0) eqn:Hz.
  - apply Qeq_bool_iff in Hz. contradiction.
  - simpl. destruct (Qle_bool (inject_Z (10 ^ 21)) (Qabs q)) eqn:Hbig; [|reflexivity].
    apply Qle_bool_iff in Hbig.
    change (inject_Z (10 ^ 21)) with (1000000000000000000000 # 1)%Q in Hbig.
    revert Hbig. apply Qabs_case; intros; lra.
Qed.

(** The key is "near:" followed by the two coordinates, the city and the
    postcode, in this order, each in lower case, separated by commas; a
    city or postcode that is [undefined] is left out. *)
Lemma locate_key_parts (lat lon city postcode : jsval) :
  locate_key E lat lon city postcode
  = "near:" ++ join "," ([toLowerCase (locate_coordinate E lat);
                          toLowerCase (locate_coordinate E lon)]
                         ++ key_part E city ++ key_part E postcode).
Proof.
  unfold locate_key, cacheKey_near, key_part. cbn [List.filter is_undefined negb].
  destruct (is_undefined city), (is_undefined postcode); reflexivity.
Qed.

(** C1, as amended: for a latitude that rounds to 51.50 and a longitude
    that rounds to -0.10, with city and postcode [undefined], the key is
    "near:51.50,-0.10" (an [undefined] field contributes nothing, not even
    its comma); when a Store is cached under that key the call returns it,
    its only event is the look-up in the cache, so the upstream site is not
    called, and the caches stay as they are. With the empty string for
    city and postcode the key is "near:51.50,-0.10,,". In general the key
    is "near:" followed by the lower-cased latitude, longitude, city and
    postcode, in this order and separated by commas, the [undefined] ones
    left out. *)
Theorem locateStore_cached_near (lat lon : jsval) (x y : Q) (w : world)
  (store : Store.t) :
  ToNumber E lat = Finite x ->
  (10299 # 2 <= x * 100)%Q -> (x * 100 < 10301 # 2)%Q ->
  ToNumber E lon = Finite y ->
  (-21 # 2 < y * 100)%Q -> (y * 100 <= -19 # 2)%Q ->
  locate_key E lat lon JUndefined JUndefined = "near:51.50,-0.10" /\
  (locator w !! "near:51.50,-0.10" = Some store ->
     fst (locateStore E lat lon JUndefined JUndefined w) = Return store /\
     events_since w (snd (locateStore E lat lon JUndefined JUndefined w))
     = [EvGetKey Locator "near:51.50,-0.10"] /\
     existsb is_upstream_event
       (events_since w (snd (locateStore E lat lon JUndefined JUndefined w))) = false /\
     caches_of (snd (locateStore E lat lon JUndefined JUndefined w)) = caches_of w) /\
  locate_key E lat lon (JStr "") (JStr "") = "near:51.50,-0.10,," /\
  (forall la lo city postcode,
     locate_key E la lo city postcode
     = "near:" ++ join "," ([toLowerCase (locate_coordinate E la);
                             toLowerCase (locate_coordinate E lo)]
                            ++ key_part E city ++ key_part E postcode)).
Proof.
  intros Hlat Hx1 Hx2 Hlon Hy1 Hy2.
  assert (locate_coordinate E lat = "51.50") as Hla.
  { unfold locate_coordinate. rewrite Hlat, toFixed2_small by lra.
    apply fixed2_51_50; assumption. }
  assert (locate_coordinate E lon = "-0.10") as Hlo.
  { unfold locate_coordinate. rewrite Hlon, toFixed2_small by lra.
    apply fixed2_minus_0_10; assumption. }
  assert (forall city postcode,
            locate_key E lat lon city postcode
            = "near:" ++ join "," (["51.50"; "-0.10"]
                                   ++ key_part E city ++ key_part E postcode)) as Hkey.
  { intros city postcode. rewrite locate_key_parts, Hla, Hlo. reflexivity. }
  split; [apply Hkey|]. split; [|split; [apply Hkey|apply locate_key_parts]].
  intros Hhit.
  assert (locate_key E lat lon JUndefined JUndefined = "near:51.50,-0.10") as Hk0
    by apply Hkey.
  rewrite (locateStore_hit E lat lon JUndefined JUndefined w store);
    rewrite Hk0; [|exact Hhit].
  assert (events_since w (log (EvGetKey Locator "near:51.50,-0.10") w)
          = [EvGetKey Locator "near:51.50,-0.10"]) as Hev
    by (apply events_since_app; reflexivity).
  cbn [fst snd]. rewrite Hev. repeat split.
Qed.

End KeyFacts.

(** ** getProductInfo *)

Section ProductFacts.

Variable E : environment.

Lemma getProductInfo_cases (styleCode : string) (storeId : jsval) (w : world) :
  getProductInfo E styleCode storeId w =
  let w1 := log (EvGetKey Products (page_key styleCode)) w in
  match products w !! page_key styleCode with
  | None => live_product E styleCode w1
  | Some entry =>
      if timestamp entry =? 0 then live_product E styleCode w1
      else if env_clock E (List.length (trace w1)) - timestamp entry <? 60000
           then (Return (value entry), log EvClock w1)
           else live_product E styleCode (log EvClock w1)
  end.
Proof.
  assert (forall w', bind (fetchLive E (productPath styleCode) (page_key styleCode) 60000)
            (fun page => match page with
                         | FromCache product => ret product
                         | Live jsdom setCache =>
                             let* productInfo := lift (parseProduct E jsdom) in
                             let* _ := setCache productInfo in
                             ret productInfo
                         end) w'
          = live_product E styleCode w') as Hlive.
  { intros w'.
    unfold live_product, page_reply, fetchLive, JSDOM_fromURL, setCache_of,
      Date_now, Cache.setKey_products, Cache.save_products, ret, lift, bind.
    fold (page_url E styleCode).
    destruct (env_upstream_page E _ _) as [dom|e]; simpl; [|reflexivity].
    destruct (parseProduct E dom) as [product|e]; [|reflexivity].
    simpl. destruct (env_write_error E _ Products); reflexivity. }
  unfold getProductInfo, fetchWebpage. fold (page_key styleCode).
  change (60000 =? 0) with false. cbv iota.
  unfold bind at 1. unfold bind at 1. unfold Cache.getKey_products.
  destruct (products w !! page_key styleCode) as [entry|]; [|apply Hlive].
  destruct (timestamp entry =? 0); [apply Hlive|].
  unfold bind at 1. unfold Date_now at 1. cbv zeta.
  destruct (_ <? 60000); [reflexivity|apply Hlive].
Qed.

Lemma live_product_fetches (styleCode : string) (w : world) :
  In (EvFromURL (page_url E styleCode)) (trace (snd (live_product E styleCode w))).
Proof.
  unfold live_product.
  destruct (obind (page_reply E styleCode w) (parseProduct E));
    [destruct (env_write_error E _ Products)|]; simpl; auto 6.
Qed.

(** C6: a style code whose length minus 3 is at least 5 loses its last
    three characters before the path of the product page is built (a code
    of length 8 becomes its first 5 characters); a shorter one, such as a
    code of length 5, is used as it is. The path so built gives the key
    the call looks up, and the address it fetches when the key is not in
    the cache. *)
Theorem styleCode_size_code_stripped (styleCode : string) :
  productPath styleCode = "/Products/Product-" ++ baseStyleCode styleCode /\
  (5 <= Z.of_nat (String.length styleCode) - 3 ->
     baseStyleCode styleCode = take (String.length styleCode - 3) styleCode /\
     String.length (baseStyleCode styleCode) = (String.length styleCode - 3)%nat) /\
  (Z.of_nat (String.length styleCode) - 3 < 5 ->
     baseStyleCode styleCode = styleCode) /\
  (String.length styleCode = 8%nat -> baseStyleCode styleCode = take 5 styleCode) /\
  (String.length styleCode = 5%nat -> baseStyleCode styleCode = styleCode) /\
  (forall storeId w,
     In (EvGetKey Products
           (cacheKey_page ("/Products/Product-" ++ baseStyleCode styleCode)))
        (trace (snd (getProductInfo E styleCode storeId w))) /\
     (products w !! page_key styleCode = None ->
      In (EvFromURL (env_SZSITE E ++ "/Products/Product-" ++ baseStyleCode styleCode))
         (trace (snd (getProductInfo E styleCode storeId w))))).
Proof.
  split; [reflexivity|]. split; [|split; [|split; [|split]]].
  - intros Hge. unfold baseStyleCode.
    destruct (Z.leb_spec 5 (Z.of_nat (String.length styleCode) - 3)); [|lia].
    split; [reflexivity|]. rewrite take_length. lia.
  - intros Hlt. unfold baseStyleCode.
    destruct (Z.leb_spec 5 (Z.of_nat (String.length styleCode) - 3)); [lia|reflexivity].
  - unfold baseStyleCode. intros ->. reflexivity.
  - unfold baseStyleCode. intros ->. reflexivity.
  - intros storeId w. rewrite getProductInfo_cases. cbv zeta.
    change (cacheKey_page ("/Products/Product-" ++ baseStyleCode styleCode))
      with (page_key styleCode).
    change (env_SZSITE E ++ "/Products/Product-" ++ baseStyleCode styleCode)
      with (page_url E styleCode).
    assert (forall w0, In (EvGetKey Products (page_key styleCode)) (trace w0) ->
              In (EvGetKey Products (page_key styleCode))
                 (trace (snd (live_product E styleCode w0)))) as Hkeep.
    { intros w0 H0. unfold live_product.
      destruct (obind (page_reply E styleCode w0) (parseProduct E));
        [destruct (env_write_error E _ Products)|]; simpl; auto 6. }
    split.
    + destruct (products w !! page_key styleCode) as [entry|].
      * destruct (timestamp entry =? 0); [apply Hkeep; simpl; auto|].
        destruct (_ <? 60000); [simpl; auto|apply Hkeep; simpl; auto].
      * apply Hkeep. simpl. auto.
    + intros ->. apply live_product_fetches.
Qed.

Lemma live_product_Return (styleCode : string) (w w' : world) (p : Product.t) :
  live_product E styleCode w = (Return p, w') ->
  (exists dom, page_reply E styleCode w = Return dom /\ parseProduct E dom = Return p) /\
  products w' !! page_key styleCode
  = Some (mk_entry (env_clock E (S (List.length (trace w)))) p) /\
  products_file w' = products w' /\
  In (EvFromURL (page_url E styleCode)) (trace w').
Proof.
  unfold live_product.
  destruct (page_reply E styleCode w) as [dom|e] eqn:Hpage; simpl; [|discriminate].
  destruct (parseProduct E dom) as [product|e] eqn:Hparse; [|discriminate].
  destruct (env_write_error E _ Products); [discriminate|].
  intros [= <- <-]. simpl. split; [eauto|]. split; [apply lookup_insert_eq|].
  split; [reflexivity|]. auto 6.
Qed.

(** A product returned by a call is the value of the entry under the key of
    the page when the call ends. *)
Lemma getProductInfo_cached_after (styleCode : string) (storeId : jsval)
  (w w' : world) (p : Product.t) :
  getProductInfo E styleCode storeId w = (Return p, w') ->
  exists entry, products w' !! page_key styleCode = Some entry /\ value entry = p.
Proof.
  rewrite getProductInfo_cases. cbv zeta.
  assert (forall w0, live_product E styleCode w0 = (Return p, w') ->
            exists entry, products w' !! page_key styleCode = Some entry
                          /\ value entry = p) as Hlive.
  { intros w0 H. apply live_product_Return in H. destruct H as (_ & H & _). eauto. }
  destruct (products w !! page_key styleCode) as [entry|] eqn:Hlook; [|apply Hlive].
  destruct (timestamp entry =? 0); [apply Hlive|].
  destruct (_ <? 60000); [|apply Hlive].
  intros [= <- <-]. simpl. eauto.
Qed.

(** The events of the live path: the fetch, and after a successful parse
    the reading of the clock, the setKey and the save. *)
Lemma live_product_trace (styleCode : string) (w : world) :
  exists new,
    trace (snd (live_product E styleCode w))
    = (new ++ EvFromURL (page_url E styleCode) :: trace w)%list /\
    (new = [] \/
     new = [EvSave Products; EvSetKey Products (page_key styleCode); EvClock]).
Proof.
  unfold live_product.
  destruct (obind (page_reply E styleCode w) (parseProduct E));
    [destruct (env_write_error E _ Products)|]; cbn [snd trace log].
  - eexists [_; _; _]. split; [reflexivity|right; reflexivity].
  - eexists [_; _; _]. split; [reflexivity|right; reflexivity].
  - exists []. split; [reflexivity|left; reflexivity].
Qed.

(** C4, as amended: the page cache of getProductInfo, with a time to live
    of 60 000 ms and the key "page@sz:" followed by the lower-cased path.
    The time to live runs from the timestamp of the cache entry, that is
    from the moment the Product was written to the cache, not from the
    first of two calls. A call that returns a Product leaves it in the
    cache under the key of the page; when that call found no entry, the
    timestamp is the reading of the clock it took before writing. A second
    call for the same style code whose clock reading is less than
    60 000 ms after the (truthy) timestamp of the entry returns the same
    Product, fetches nothing (its only events are the look-up and the
    reading of the clock) and leaves the caches as they are; a second call
    whose reading is 60 000 ms or more after it fetches the page again. A
    call that finds the entry expired and whose fetch, parse and write
    succeed returns the parsed Product and overwrites the entry with it
    and the timestamp read from the clock at that moment, in memory and in
    the file. *)
Theorem getProductInfo_page_cache (styleCode : string) (sid1 sid2 : jsval) :
  page_key styleCode = "page@sz:" ++ toLowerCase (productPath styleCode) /\
  (forall w w1 p,
     getProductInfo E styleCode sid1 w = (Return p, w1) ->
     exists entry,
       products w1 !! page_key styleCode = Some entry /\ value entry = p /\
       (products w !! page_key styleCode = None ->
        timestamp entry = env_clock E (S (S (List.length (trace w))))) /\
       (timestamp entry <> 0 ->
        env_clock E (S (List.length (trace w1))) - timestamp entry < 60000 ->
        let second := getProductInfo E styleCode sid2 w1 in
        fst second = Return p /\
        events_since w1 (snd second)
        = [EvClock; EvGetKey Products (page_key styleCode)] /\
        existsb is_upstream_event (events_since w1 (snd second)) = false /\
        caches_of (snd second) = caches_of w1) /\
       (timestamp entry <> 0 ->
        60000 <= env_clock E (S (List.length (trace w1))) - timestamp entry ->
        In (EvFromURL (page_url E styleCode))
           (events_since w1 (snd (getProductInfo E styleCode sid2 w1))))) /\
  (forall w entry dom p,
     products w !! page_key styleCode = Some entry ->
     timestamp entry <> 0 ->
     60000 <= env_clock E (S (List.length (trace w))) - timestamp entry ->
     env_upstream_page E (S (S (List.length (trace w)))) (page_url E styleCode)
     = Return dom ->
     parseProduct E dom = Return p ->
     env_write_error E (S (S (S (S (S (List.length (trace w))))))) Products = None ->
     let fresh := mk_entry (env_clock E (S (S (S (List.length (trace w)))))) p in
     let w2 := snd (getProductInfo E styleCode sid2 w) in
     fst (getProductInfo E styleCode sid2 w) = Return p /\
     products w2 = <[page_key styleCode := fresh]> (products w) /\
     products_file w2 = products w2 /\
     events_since w w2
     = [EvSave Products; EvSetKey Products (page_key styleCode); EvClock;
        EvFromURL (page_url E styleCode); EvClock;
        EvGetKey Products (page_key styleCode)]).
Proof.
  split; [reflexivity|]. split.
  - intros w w1 p Hfirst.
    destruct (getProductInfo_cached_after _ _ _ _ _ Hfirst) as (entry & Hlook & Hval).
    exists entry. split; [exact Hlook|]. split; [exact Hval|]. split; [|split].
    + intros Hmiss. revert Hfirst. rewrite getProductInfo_cases, Hmiss. cbv zeta.
      intros Hlive. apply live_product_Return in Hlive.
      destruct Hlive as (_ & Hentry & _). rewrite Hentry in Hlook.
      injection Hlook as <-. reflexivity.
    + intros Hts Hfresh. rewrite getProductInfo_cases, Hlook. cbv zeta.
      destruct (Z.eqb_spec (timestamp entry) 0); [contradiction|].
      change (List.length (trace (log (EvGetKey Products (page_key styleCode)) w1)))
        with (S (List.length (trace w1))).
      destruct (Z.ltb_spec (env_clock E (S (List.length (trace w1))) - timestamp entry)
                  60000); [|lia].
      rewrite Hval. cbn [fst snd].
      assert (events_since w1
                (log EvClock (log (EvGetKey Products (page_key styleCode)) w1))
              = [EvClock; EvGetKey Products (page_key styleCode)]) as Hev
        by (apply events_since_app; reflexivity).
      rewrite Hev. repeat split.
    + intros Hts Hold. rewrite getProductInfo_cases, Hlook. cbv zeta.
      destruct (Z.eqb_spec (timestamp entry) 0); [contradiction|].
      change (List.length (trace (log (EvGetKey Products (page_key styleCode)) w1)))
        with (S (List.length (trace w1))).
      destruct (Z.ltb_spec (env_clock E (S (List.length (trace w1))) - timestamp entry)
                  60000); [lia|].
      destruct (live_product_trace styleCode
                  (log EvClock (log (EvGetKey Products (page_key styleCode)) w1)))
        as (new & Htrace & _).
      rewrite (events_since_app w1 _
                 (new ++ [EvFromURL (page_url E styleCode); EvClock;
                          EvGetKey Products (page_key styleCode)])).
      * apply in_or_app. right. left. reflexivity.
      * rewrite Htrace, <- app_assoc. reflexivity.
  - intros w entry dom p Hlook Hts Hold Hpage Hparse Hwrite fresh w2.
    subst w2. rewrite getProductInfo_cases, Hlook. cbv zeta.
    destruct (Z.eqb_spec (timestamp entry) 0); [contradiction|].
    change (List.length (trace (log (EvGetKey Products (page_key styleCode)) w)))
      with (S (List.length (trace w))).
    destruct (Z.ltb_spec (env_clock E (S (List.length (trace w))) - timestamp entry) 60000);
      [lia|].
    unfold live_product, page_reply. simpl. rewrite Hpage. simpl. rewrite Hparse.
    rewrite Hwrite.
    simpl. split; [reflexivity|]. split; [reflexivity|]. split; [reflexivity|].
    apply events_since_app. reflexivity.
Qed.

Lemma omap_Return {A B} (f : A -> outcome B) (l : list A) (bs : list B) :
  omap f l = Return bs ->
  (forall b, In b bs -> exists a, In a l /\ f a = Return b) /\
  (forall a, In a l -> exists b, In b bs /\ f a = Return b).
Proof.
  revert bs. induction l as [|a l IH]; simpl; intros bs H.
  - injection H as <-. split; intros ? [].
  - destruct (f a) as [b|e] eqn:Hfa; simpl in H; [|discriminate].
    destruct (omap f l) as [bs'|e]; simpl in H; [|discriminate].
    injection H as <-. destruct (IH bs' eq_refl) as [IH1 IH2]. split.
    + intros b0 [<-|Hin]; [eauto|].
      destruct (IH1 b0 Hin) as (a0 & Ha0 & Hf). eauto.
    + intros a0 [<-|Hin]; [eauto with datatypes|].
      destruct (IH2 a0 Hin) as (b0 & Hb0 & Hf). eauto with datatypes.
Qed.

Lemma toOffer_name (b : Dom.badge) (o : Offer.t) :
  toOffer b = Return o -> Offer.name o = trim (Dom.a_title b).
Proof.
  unfold toOffer. destruct (Dom.a_img_src b) as [src|]; simpl; [|discriminate].
  destruct (abbreviateOffer (Dom.a_title b)); simpl; [|discriminate].
  intros [= <-]. reflexivity.
Qed.

Lemma includes_In (l : list string) (x : string) :
  includes l x = true <-> In x l.
Proof.
  unfold includes. rewrite existsb_exists. split.
  - intros (y & Hin & Heq). apply String.eqb_eq in Heq. subst. exact Hin.
  - intros Hin. exists x. split; [exact Hin|apply String.eqb_refl].
Qed.

Lemma parseProduct_offers (dom : Dom.document) (p : Product.t) :
  parseProduct E dom = Return p ->
  exists all, omap toOffer (Dom.offer_badges dom) = Return all /\
              Product.offers p = List.filter kept all.
Proof.
  unfold parseProduct. intros H.
  repeat (match type of H with
          | obind ?x _ = Return _ =>
              destruct x eqn:?; simpl in H; [|discriminate]
          end).
  injection H as <-. eauto.
Qed.

(** A product a call returns was in the cache under the key of the page
    before the call, or has been parsed from a page during the call. *)
Lemma getProductInfo_origin (styleCode : string) (storeId : jsval)
  (w w' : world) (p : Product.t) :
  getProductInfo E styleCode storeId w = (Return p, w') ->
  (exists entry, products w !! page_key styleCode = Some entry /\ value entry = p) \/
  (exists dom, parseProduct E dom = Return p).
Proof.
  rewrite getProductInfo_cases. cbv zeta.
  assert (forall w0, live_product E styleCode w0 = (Return p, w') ->
            exists dom, parseProduct E dom = Return p) as Hlive.
  { intros w0 H. apply live_product_Return in H.
    destruct H as ((dom & _ & Hparse) & _). eauto. }
  destruct (products w !! page_key styleCode) as [entry|]; [|right; eauto].
  destruct (timestamp entry =? 0); [right; eauto|].
  destruct (_ <? 60000); [|right; eauto].
  intros [= <- _]. left. eauto.
Qed.

Lemma parseProduct_clean (dom : Dom.document) (p : Product.t) :
  parseProduct E dom = Return p -> offers_clean p.
Proof.
  intros Hparse o Ho.
  destruct (parseProduct_offers dom p Hparse) as (all & _ & Hoffers).
  rewrite Hoffers in Ho. apply filter_In in Ho. destruct Ho as [_ Hk].
  unfold kept in Hk. rewrite <- includes_In.
  destruct (includes ignoredOffers (toLowerCase (Offer.name o)));
    [discriminate|auto].
Qed.

Lemma live_product_clean (styleCode : string) (w : world) :
  cache_clean w ->
  cache_clean (snd (live_product E styleCode w)) /\
  (forall p, fst (live_product E styleCode w) = Return p -> offers_clean p).
Proof.
  intros Hclean. unfold live_product.
  destruct (page_reply E styleCode w) as [dom|e]; simpl;
    [|split; [exact Hclean|discriminate]].
  destruct (parseProduct E dom) as [product|e] eqn:Hparse; simpl;
    [|split; [exact Hclean|discriminate]].
  pose proof (parseProduct_clean dom product Hparse) as Hp.
  assert (forall k entry,
            <[page_key styleCode :=
                mk_entry (env_clock E (S (List.length (trace w)))) product]>
              (products w) !! k = Some entry -> offers_clean (value entry)) as Hnew.
  { intros k entry. rewrite lookup_insert. case_decide.
    - intros [= <-]. exact Hp.
    - apply Hclean. }
  destruct (env_write_error E _ Products); simpl.
  - split; [exact Hnew|discriminate].
  - split; [exact Hnew|]. intros p [= <-]. exact Hp.
Qed.

(** C7: in a Product parsed by getProductInfo, the offers are the badges
    of the page whose trimmed title, in lower case, is not an entry of the
    ignore-list. A badge whose trimmed title equals an entry up to case is
    left out of [offers]; every other badge is kept, so a title that only
    contains an entry is kept. The only entry is "memory foam". If no
    Product of the page cache has an ignored offer, then no Product
    getProductInfo returns has one, and the cache stays that way. *)
Theorem ignored_offers_excluded :
  (forall dom p,
     parseProduct E dom = Return p ->
     (forall o, In o (Product.offers p) ->
        ~ In (toLowerCase (Offer.name o)) ignoredOffers /\
        exists b, In b (Dom.offer_badges dom) /\ Offer.name o = trim (Dom.a_title b)) /\
     (forall b, In b (Dom.offer_badges dom) ->
        In (toLowerCase (trim (Dom.a_title b))) ignoredOffers ->
        ~ exists o, In o (Product.offers p) /\ Offer.name o = trim (Dom.a_title b)) /\
     (forall b, In b (Dom.offer_badges dom) ->
        ~ In (toLowerCase (trim (Dom.a_title b))) ignoredOffers ->
        exists o, In o (Product.offers p) /\ Offer.name o = trim (Dom.a_title b))) /\
  (forall x, In x ignoredOffers <-> x = "memory foam") /\
  (forall styleCode storeId w,
     cache_clean w ->
     cache_clean (snd (getProductInfo E styleCode storeId w)) /\
     (forall p, fst (getProductInfo E styleCode storeId w) = Return p ->
                offers_clean p)).
Proof.
  split; [|split].
  - intros dom p Hparse.
    pose proof (parseProduct_clean dom p Hparse) as Hkept.
    destruct (parseProduct_offers dom p Hparse) as (all & Hall & Hoffers).
    destruct (omap_Return _ _ _ Hall) as [Hfrom Hto].
    split; [|split].
    + intros o Ho. split; [apply Hkept, Ho|].
      rewrite Hoffers in Ho. apply filter_In in Ho. destruct Ho as [Ho _].
      destruct (Hfrom o Ho) as (b & Hb & Hf). exists b. split; [exact Hb|].
      apply toOffer_name, Hf.
    + intros b Hb Hign (o & Ho & Hname). apply (Hkept o Ho). rewrite Hname. exact Hign.
    + intros b Hb Hnot. destruct (Hto b Hb) as (o & Ho & Hf).
      pose proof (toOffer_name b o Hf) as Hname.
      exists o. split; [|exact Hname]. rewrite Hoffers. apply filter_In.
      split; [exact Ho|]. unfold kept. rewrite Hname.
      destruct (includes ignoredOffers (toLowerCase (trim (Dom.a_title b)))) eqn:Hinc;
        [|reflexivity].
      apply includes_In in Hinc. contradiction.
  - intros x. simpl. split; [intros [<-|[]]; reflexivity|intros ->; auto].
  - intros styleCode storeId w Hclean. rewrite getProductInfo_cases. cbv zeta.
    assert (forall e w0, cache_clean w0 -> cache_clean (log e w0)) as Hlog
      by (intros e w0 H; exact H).
    destruct (products w !! page_key styleCode) as [entry|] eqn:Hlook;
      [|apply live_product_clean, Hlog, Hclean].
    destruct (timestamp entry =? 0); [apply live_product_clean, Hlog, Hclean|].
    destruct (_ <? 60000); [|apply live_product_clean, Hlog, Hlog, Hclean].
    split; [exact Hclean|]. intros p [= <-]. exact (Hclean _ _ Hlook).
Qed.

End ProductFacts.

(** ** The statements at concrete inputs *)

(** The second example with the pound sign as the two bytes of its UTF-8
    encoding gives the same abbreviation. *)
Example abbreviateOffer_pound_utf8 :
  abbreviateOffer "2 For £10" = Return "2-4-10".
Proof. vm_compute. reflexivity. Qed.

(** A query by postcode: the first call asks the upstream site and caches
    the Store; the second call, with the postcode in another case, finds
    it under the same key and asks nothing. *)
Example locateStore_example :
  let E0 := example_environment (fun _ _ _ => Return found_payload) no_page in
  let first := locateStore E0 JUndefined JUndefined JUndefined (JStr "GL1 1PA") empty_world in
  let second := locateStore E0 JUndefined JUndefined JUndefined (JStr "gl1 1pa") (snd first) in
  fst first = Return found_store /\
  events_since empty_world (snd first)
  = [EvSave Locator; EvSetKey Locator "near:0.00,0.00,gl1 1pa";
     EvPost "https://www.shoezone.com/StoreLocator.aspx/FindRequestedStores"
            (FindRequestedStores "" "GL11PA" "0.00" "0.00" 0 1);
     EvGetKey Locator "near:0.00,0.00,gl1 1pa"] /\
  fst second = Return found_store /\
  events_since (snd first) (snd second) = [EvGetKey Locator "near:0.00,0.00,gl1 1pa"].
Proof. vm_compute. repeat split. Qed.

Example checkStoreStock_example :
  let E0 := example_environment (fun _ _ _ => Return in_stock_payload) no_page in
  fst (checkStoreStock E0 (JStr "15070") (JStr "040") (JStr "1649") JUndefined
         empty_world)
  = Return (StockCheckResult.mk (JBool true) (JStr "Gloucester")
              (JNum (Finite 1649)) (JStr "12 Eastgate Street")).
Proof. vm_compute. reflexivity. Qed.

Example parseProduct_example :
  parseProduct (example_environment no_post no_page) example_page
  = Return example_product.
Proof. vm_compute. reflexivity. Qed.

(** C1, as stated, fails: with city and postcode [undefined] the key has
    no trailing commas, so a Store cached under "near:51.50,-0.10,," is not
    found and the upstream site is called. *)
Lemma locateStore_key_has_no_trailing_commas :
  let E0 := example_environment no_post no_page in
  let w0 := mk_world {[ "near:51.50,-0.10,," := example_store ]} ∅ ∅ ∅ [] in
  locate_key E0 example_lat example_lon JUndefined JUndefined = "near:51.50,-0.10" /\
  locate_key E0 example_lat example_lon JUndefined JUndefined <> "near:51.50,-0.10,," /\
  locator w0 !! "near:51.50,-0.10,," = Some example_store /\
  fst (locateStore E0 example_lat example_lon JUndefined JUndefined w0)
  <> Return example_store /\
  trace (snd (locateStore E0 example_lat example_lon JUndefined JUndefined w0))
  = [EvPost (locate_url E0)
            (FindRequestedStores "" "" "51.50" "-0.10" 0 1);
     EvGetKey Locator "near:51.50,-0.10"].
Proof.
  cbv zeta. split; [vm_compute; reflexivity|].
  split; [vm_compute; discriminate|].
  split; [vm_compute; reflexivity|].
  split; [vm_compute; discriminate|vm_compute; reflexivity].
Qed.

Lemma locateStore_cached_near_witness :
  let E0 := example_environment no_post no_page in
  let w0 := mk_world {[ "near:51.50,-0.10" := example_store ]} ∅ ∅ ∅ [] in
  locate_key E0 example_lat example_lon JUndefined JUndefined = "near:51.50,-0.10" /\
  fst (locateStore E0 example_lat example_lon JUndefined JUndefined w0)
  = Return example_store.
Proof.
  cbv zeta.
  destruct (locateStore_cached_near (example_environment no_post no_page)
              example_lat example_lon (515 # 10) (-1 # 10)
              (mk_world {[ "near:51.50,-0.10" := example_store ]} ∅ ∅ ∅ [])
              example_store)
    as (Hkey & Hhit & _);
    [reflexivity|vm_compute; discriminate|vm_compute; reflexivity
    |reflexivity|vm_compute; reflexivity|vm_compute; discriminate|].
  split; [exact Hkey|]. apply Hhit. vm_compute. reflexivity.
Defined.

Lemma locateStore_not_found_witness :
  let E0 := example_environment (fun _ _ _ => Return not_found_payload) no_page in
  exists date,
    fst (locateStore E0 JUndefined JUndefined (JStr "Atlantis") JUndefined empty_world)
    = Throw (HttpError "No stores found" 400 date).
Proof.
  cbv zeta.
  destruct (locateStore_not_found
              (example_environment (fun _ _ _ => Return not_found_payload) no_page)
              JUndefined JUndefined (JStr "Atlantis") JUndefined empty_world
              "" "No stores found"
              [("Stores", JNull); ("ErrorMsg", JStr "No stores found")])
    as (date & Hres & _);
    [vm_compute; reflexivity|reflexivity|reflexivity|reflexivity|reflexivity
    |discriminate|].
  exists date. exact Hres.
Defined.

Lemma locateStore_null_stores_without_message_witness :
  let E0 := example_environment (fun _ _ _ => Return null_stores_payload) no_page in
  fst (locateStore E0 JUndefined JUndefined (JStr "Atlantis") JUndefined empty_world)
  = Throw TypeError.
Proof.
  cbv zeta.
  destruct (locateStore_null_stores_without_message
              (example_environment (fun _ _ _ => Return null_stores_payload) no_page)
              JUndefined JUndefined (JStr "Atlantis") JUndefined empty_world
              "" [("Stores", JNull); ("ErrorMsg", JStr "")])
    as (Hnull & _);
    [vm_compute; reflexivity|reflexivity|reflexivity|].
  apply Hnull; reflexivity.
Defined.

(** C9, as stated, fails: a payload in which the field is present with the
    value [null] makes the call fail with "Product unavailable", so the
    call does not return a result whenever the field is present. *)
Lemma checkStoreStock_null_field_unavailable :
  let E0 := example_environment (fun _ _ _ => Return null_stock_payload) no_page in
  let result :=
    fst (checkStoreStock E0 (JStr "15070") (JStr "040") (JStr "1649") JUndefined
           empty_world) in
  field_of null_stock_payload "_prod_sNo_Stock" = Some JNull /\
  result = Throw (JsError "Product unavailable") /\
  ~ ((exists res, result = Return res)
     <-> is_Some (field_of null_stock_payload "_prod_sNo_Stock")).
Proof.
  cbv zeta. split; [reflexivity|]. split; [vm_compute; reflexivity|].
  intros [_ H]. destruct H as [res Hres]; [eexists; reflexivity|].
  vm_compute in Hres. discriminate.
Qed.

Lemma checkStoreStock_unavailable_witness :
  let E0 := example_environment (fun _ _ _ => Return (JObj [])) no_page in
  fst (checkStoreStock E0 (JStr "15070") (JStr "040") (JStr "1649") JUndefined
         empty_world)
  = Throw (JsError "Product unavailable").
Proof.
  cbv zeta.
  destruct (checkStoreStock_unavailable
              (example_environment (fun _ _ _ => Return (JObj [])) no_page)
              (JStr "15070") (JStr "040") (JStr "1649") JUndefined
              empty_world (JObj []) JUndefined)
    as (Hfalsy & _); [reflexivity|reflexivity|].
  apply Hfalsy. reflexivity.
Defined.

Lemma ignored_offers_excluded_witness :
  let E0 := example_environment no_post no_page in
  parseProduct E0 example_page = Return example_product /\
  (exists o, In o (Product.offers example_product)
             /\ Offer.name o = "Memory Foam Insoles") /\
  ~ (exists o, In o (Product.offers example_product)
               /\ Offer.name o = "Memory Foam").
Proof.
  cbv zeta.
  destruct (proj1 (ignored_offers_excluded (example_environment no_post no_page))
              example_page example_product)
    as (_ & Hout & Hin); [vm_compute; reflexivity|].
  split; [vm_compute; reflexivity|]. split.
  - apply (Hin (Dom.mk_badge "Memory Foam Insoles" (Some (Some "/badges/mfi.png")))).
    + simpl. auto.
    + vm_compute. intros [H|[]]. discriminate.
  - apply (Hout (Dom.mk_badge "Memory Foam" (Some (Some "/badges/mf.png")))).
    + simpl. auto.
    + vm_compute. auto.
Defined.

Lemma getProductInfo_page_cache_witness :
  let E0 := example_environment no_post (fun _ _ => Return example_page) in
  let E1 := with_clock (fun n => 1595000000000 + 40000 * Z.of_nat n) E0 in
  let w1 := snd (getProductInfo E0 "15070040" JUndefined empty_world) in
  let w1' := snd (getProductInfo E1 "15070040" JUndefined empty_world) in
  fst (getProductInfo E0 "15070040" JUndefined empty_world) = Return example_product /\
  (fst (getProductInfo E0 "15070040" JUndefined w1) = Return example_product /\
   events_since w1 (snd (getProductInfo E0 "15070040" JUndefined w1))
   = [EvClock; EvGetKey Products "page@sz:/products/product-15070"]) /\
  (fst (getProductInfo E1 "15070040" JUndefined w1') = Return example_product /\
   products (snd (getProductInfo E1 "15070040" JUndefined w1'))
     !! "page@sz:/products/product-15070"
   = Some (mk_entry 1595000320000 example_product) /\
   In (EvFromURL "https://www.shoezone.com/Products/Product-15070")
      (events_since w1' (snd (getProductInfo E1 "15070040" JUndefined w1')))).
Proof.
  cbv zeta. split; [vm_compute; reflexivity|]. split.
  - destruct (proj1 (proj2 (getProductInfo_page_cache
                (example_environment no_post (fun _ _ => Return example_page))
                "15070040" JUndefined JUndefined))
                empty_world
                (snd (getProductInfo
                        (example_environment no_post (fun _ _ => Return example_page))
                        "15070040" JUndefined empty_world))
                example_product)
      as (entry & Hlook & Hval & _ & Hhit & _); [vm_compute; reflexivity|].
    vm_compute in Hlook. injection Hlook as <-.
    destruct Hhit as (Hres & Hev & _);
      [vm_compute; discriminate|vm_compute; reflexivity|].
    split; [exact Hres|exact Hev].
  - destruct (proj2 (proj2 (getProductInfo_page_cache
                (with_clock (fun n => 1595000000000 + 40000 * Z.of_nat n)
                   (example_environment no_post (fun _ _ => Return example_page)))
                "15070040" JUndefined JUndefined))
                (snd (getProductInfo
                        (with_clock (fun n => 1595000000000 + 40000 * Z.of_nat n)
                           (example_environment no_post (fun _ _ => Return example_page)))
                        "15070040" JUndefined empty_world))
                (mk_entry 1595000080000 example_product)
                example_page example_product)
      as (Hres & Hprod & _ & Hev);
      [vm_compute; reflexivity|vm_compute; discriminate|vm_compute; discriminate
      |reflexivity|vm_compute; reflexivity|reflexivity|].
    split; [exact Hres|]. split.
    + rewrite Hprod. vm_compute. reflexivity.
    + rewrite Hev. vm_compute. auto 6.
Defined.

(** C4, as stated, fails: the time to live runs from the timestamp of the
    entry, not from the first call. Here the entry is 50 s old when the
    first call is served from the cache; the second call comes 20 s after
    the first and fetches the page again. *)
Lemma getProductInfo_ttl_runs_from_the_entry :
  let E0 := with_clock (fun n => 1595000040000 + 10000 * Z.of_nat n)
              (example_environment no_post (fun _ _ => Return example_page)) in
  let w0 := mk_world ∅ ∅ {[ "page@sz:/products/product-15070"
                             := mk_entry 1595000000000 example_product ]} ∅ [] in
  let first := getProductInfo E0 "15070" JUndefined w0 in
  let second := getProductInfo E0 "15070" JUndefined (snd first) in
  fst first = Return example_product /\
  events_since w0 (snd first)
  = [EvClock; EvGetKey Products "page@sz:/products/product-15070"] /\
  env_clock E0 (S (List.length (trace (snd first))))
  - env_clock E0 (S (List.length (trace w0))) = 20000 /\
  In (EvFromURL "https://www.shoezone.com/Products/Product-15070")
     (events_since (snd first) (snd second)) /\
  existsb is_upstream_event (events_since (snd first) (snd second)) = true.
Proof.
  cbv zeta. repeat split; vm_compute; auto 6.
Qed.

Lemma styleCode_size_code_stripped_witness :
  baseStyleCode "15070040" = "15070" /\ baseStyleCode "15070" = "15070".
Proof.
  pose proof (styleCode_size_code_stripped (example_environment no_post no_page)
                "15070040") as (_ & _ & _ & H8 & _).
  pose proof (styleCode_size_code_stripped (example_environment no_post no_page)
                "15070") as (_ & _ & _ & _ & H5 & _).
  split; [rewrite H8; reflexivity|apply H5; reflexivity].
Defined.

(** ** Further properties of the code *)

(** *** Characters and strings *)

Section CaseFacts.

Ltac by_cases_on c :=
  destruct c as [[] [] [] [] [] [] [] []]; vm_compute; reflexivity.

Lemma lower_upper_char (c : ascii) : lower_char (upper_char c) = lower_char c.
Proof. by_cases_on c. Qed.

Lemma lower_lower_char (c : ascii) : lower_char (lower_char c) = lower_char c.
Proof. by_cases_on c. Qed.

Lemma upper_upper_char (c : ascii) : upper_char (upper_char c) = upper_char c.
Proof. by_cases_on c. Qed.

Lemma upper_char_not_lower (c : ascii) : is_lower (upper_char c) = false.
Proof. by_cases_on c. Qed.

Lemma upper_char_space (c : ascii) : is_space (upper_char c) = is_space c.
Proof. by_cases_on c. Qed.

Lemma upper_char_blank (c : ascii) : is_blank (upper_char c) = is_blank c.
Proof. by_cases_on c. Qed.

Lemma upper_char_alnum (c : ascii) :
  is_alnum c = true -> is_upper (upper_char c) || is_digit (upper_char c) = true.
Proof. revert c. intros [[] [] [] [] [] [] [] []]; vm_compute; auto. Qed.

Lemma digit_not_lower (c : ascii) : is_digit c = true -> is_lower c = false.
Proof. revert c. intros [[] [] [] [] [] [] [] []]; vm_compute; auto. Qed.

Lemma blank_char (c : ascii) : is_blank c = true -> c = " "%char.
Proof. revert c. intros [[] [] [] [] [] [] [] []]; vm_compute; congruence. Qed.

Lemma dot_char (c : ascii) : is_dot c = true -> c = "."%char.
Proof. revert c. intros [[] [] [] [] [] [] [] []]; vm_compute; congruence. Qed.

Lemma toLowerCase_idempotent (s : string) :
  toLowerCase (toLowerCase s) = toLowerCase s.
Proof.
  unfold toLowerCase. induction s as [|c s IH]; simpl; [reflexivity|].
  rewrite lower_lower_char. f_equal. exact IH.
Qed.

Lemma toUpperCase_idempotent (s : string) :
  toUpperCase (toUpperCase s) = toUpperCase s.
Proof.
  unfold toUpperCase. induction s as [|c s IH]; simpl; [reflexivity|].
  rewrite upper_upper_char. f_equal. exact IH.
Qed.

Lemma toUpperCase_no_lower (s : string) :
  all_chars (fun c => negb (is_lower c)) (toUpperCase s) = true.
Proof.
  unfold toUpperCase. induction s as [|c s IH]; simpl; [reflexivity|].
  rewrite upper_char_not_lower. exact IH.
Qed.

Lemma map_chars_app (f : ascii -> ascii) (s t : string) :
  map_chars f (s ++ t) = map_chars f s ++ map_chars f t.
Proof. induction s as [|c s IH]; simpl; [reflexivity|]. rewrite IH. reflexivity. Qed.

Lemma all_chars_app (p : ascii -> bool) (s t : string) :
  all_chars p (s ++ t) = all_chars p s && all_chars p t.
Proof.
  induction s as [|c s IH]; simpl; [reflexivity|].
  rewrite IH, andb_assoc. reflexivity.
Qed.

Lemma length_map_chars (f : ascii -> ascii) (s : string) :
  String.length (map_chars f s) = String.length s.
Proof. induction s as [|c s IH]; simpl; [reflexivity|]. rewrite IH. reflexivity. Qed.

End CaseFacts.

Section SplitFacts.

Variable sep : ascii -> bool.
Variable c : ascii.
Hypothesis sep_char : forall x, sep x = true -> x = c.

(** Joining the pieces of a split with the separator gives the string
    back. *)
Lemma join_split_on (s : string) :
  join (String c EmptyString) (split_on sep s) = s.
Proof.
  induction s as [|a s IH]; simpl; [reflexivity|].
  pose proof (split_on_nonempty sep s) as Hne. revert IH.
  destruct (sep a) eqn:Ha.
  - apply sep_char in Ha. subst a.
    destruct (split_on sep s) as [|w ws]; [congruence|].
    intros <-. reflexivity.
  - destruct (split_on sep s) as [|w ws]; [congruence|].
    intros <-. destruct ws; reflexivity.
Qed.

(** Joining the pieces with nothing in between removes the separators. *)
Lemma join_empty_split_on (s : string) :
  join "" (split_on sep s) = filter_chars (fun x => negb (sep x)) s.
Proof.
  induction s as [|a s IH]; simpl; [reflexivity|].
  pose proof (split_on_nonempty sep s) as Hne. revert IH.
  destruct (sep a) eqn:Ha; simpl.
  - destruct (split_on sep s) as [|w ws]; [congruence|].
    intros <-. reflexivity.
  - destruct (split_on sep s) as [|w ws]; [congruence|].
    intros <-. destruct ws; reflexivity.
Qed.

End SplitFacts.

Lemma filter_chars_all (p : ascii -> bool) (s : string) :
  all_chars p (filter_chars p s) = true.
Proof.
  induction s as [|a s IH]; simpl; [reflexivity|].
  destruct (p a) eqn:Ha; simpl; [rewrite Ha|]; exact IH.
Qed.

Section TrimFacts.

Lemma trimEnd_keeps_head (c : ascii) (s : string) :
  is_space c = false -> trimEnd (String c s) = String c (trimEnd s).
Proof. intros Hc. simpl. rewrite Hc. destruct (trimEnd s); reflexivity. Qed.

Lemma trimEnd_idempotent (s : string) : trimEnd (trimEnd s) = trimEnd s.
Proof.
  induction s as [|c s IH]; simpl; [reflexivity|].
  destruct (trimEnd s) as [|d t] eqn:Ht.
  - destruct (is_space c) eqn:Hc; simpl; [reflexivity|]. rewrite Hc. reflexivity.
  - change (trimEnd (String c (String d t))) with
      (match trimEnd (String d t) with
       | EmptyString => if is_space c then EmptyString else String c EmptyString
       | u => String c u
       end).
    rewrite IH. reflexivity.
Qed.

Lemma trimStart_head (s : string) :
  trimStart s = EmptyString \/
  exists c t, trimStart s = String c t /\ is_space c = false.
Proof.
  induction s as [|c s IH]; simpl; [left; reflexivity|].
  destruct (is_space c) eqn:Hc; [exact IH|right; eauto].
Qed.

(** Trimming twice is trimming once. *)
Lemma trim_idempotent (s : string) : trim (trim s) = trim s.
Proof.
  unfold trim. destruct (trimStart_head s) as [->|(c & t & -> & Hc)]; [reflexivity|].
  rewrite (trimEnd_keeps_head c t Hc). simpl trimStart. rewrite Hc.
  rewrite <- (trimEnd_keeps_head c t Hc). apply trimEnd_idempotent.
Qed.

Lemma trimStart_toUpperCase (s : string) :
  trimStart (toUpperCase s) = toUpperCase (trimStart s).
Proof.
  unfold toUpperCase. induction s as [|c s IH]; simpl; [reflexivity|].
  rewrite upper_char_space. destruct (is_space c); [exact IH|reflexivity].
Qed.

Lemma trimEnd_toUpperCase (s : string) :
  trimEnd (toUpperCase s) = toUpperCase (trimEnd s).
Proof.
  unfold toUpperCase. induction s as [|c s IH]; simpl; [reflexivity|].
  rewrite IH, upper_char_space.
  destruct (trimEnd s); simpl; [destruct (is_space c)|]; reflexivity.
Qed.

Lemma trim_toUpperCase (s : string) : trim (toUpperCase s) = toUpperCase (trim s).
Proof. unfold trim. rewrite trimStart_toUpperCase. apply trimEnd_toUpperCase. Qed.

End TrimFacts.

(** *** abbreviateOffer *)

Section AbbreviationFacts.

Lemma abbreviation_char_not_lower (c : ascii) :
  is_abbreviation_char c = true -> negb (is_lower c) = true.
Proof. revert c. intros [[] [] [] [] [] [] [] []]; vm_compute; auto. Qed.

Lemma digit_abbreviation_char (c : ascii) :
  is_digit c = true -> is_abbreviation_char c = true.
Proof.
  unfold is_abbreviation_char. intros ->. rewrite orb_true_r. reflexivity.
Qed.

Lemma segment_chars (w : string) :
  w <> "" -> all_chars is_alnum w = true ->
  all_chars is_abbreviation_char (segment w) = true.
Proof.
  intros Hne Hal. unfold segment.
  destruct (String.eqb (toLowerCase w) "for"); [reflexivity|].
  destruct w as [|c rest]; [congruence|]. simpl in Hal.
  apply andb_true_iff in Hal. destruct Hal as [Hc _]. simpl.
  apply andb_true_iff. split.
  - unfold is_abbreviation_char. rewrite (upper_char_alnum c Hc). reflexivity.
  - apply (all_chars_impl is_digit); [apply digit_abbreviation_char|].
    apply filter_chars_all.
Qed.

Lemma all_chars_join_empty (p : ascii -> bool) (l : list string) :
  List.Forall (fun w => all_chars p w = true) l -> all_chars p (join "" l) = true.
Proof.
  induction 1 as [|w ws Hw _ IH]; [reflexivity|].
  destruct ws as [|w' ws']; [exact Hw|].
  change (join "" (w :: w' :: ws')) with (w ++ join "" (w' :: ws')).
  rewrite all_chars_app, Hw, IH. reflexivity.
Qed.

(** X1: abbreviateOffer returns for every string and never throws; its
    result has no lower-case letter; for an offer of several words the
    result consists of upper-case letters, digits and hyphens only. *)
Theorem abbreviateOffer_alphabet (offer : string) :
  exists abbr,
    abbreviateOffer offer = Return abbr /\
    no_lower abbr = true /\
    (no_blank (trim offer) = false ->
     all_chars is_abbreviation_char abbr = true).
Proof.
  unfold abbreviateOffer. destruct (no_blank (trim offer)) eqn:Hone.
  - eexists. split; [reflexivity|]. split; [apply toUpperCase_no_lower|discriminate].
  - rewrite (omap_abbreviateWord _ (offerWords_alnum offer)). simpl.
    assert (all_chars is_abbreviation_char (join "" (map segment (offerWords offer)))
            = true) as Hchars.
    { apply all_chars_join_empty. apply List.Forall_map.
      eapply List.Forall_impl; [|apply offerWords_alnum].
      intros w [Hne Hal]. apply segment_chars; assumption. }
    eexists. split; [reflexivity|]. split; [|intros _; exact Hchars].
    revert Hchars. apply all_chars_impl. apply abbreviation_char_not_lower.
Qed.

End AbbreviationFacts.

(** *** The parser of the product page *)

Section ParserFacts.

Variable E : environment.

Lemma abbreviateOffer_abbreviation (offer : string) :
  abbreviateOffer offer = Return (abbreviation offer).
Proof.
  unfold abbreviateOffer, abbreviation. destruct (no_blank (trim offer)); [reflexivity|].
  rewrite (omap_abbreviateWord _ (offerWords_alnum offer)). reflexivity.
Qed.

Lemma omap_toOffer (bs : list Dom.badge) :
  omap toOffer bs
  = if forallb has_image bs then Return (map offerOf bs) else Throw TypeError.
Proof.
  induction bs as [|b bs IH]; simpl; [reflexivity|].
  unfold toOffer at 1, has_image at 1, offerOf at 1.
  rewrite abbreviateOffer_abbreviation.
  destruct (Dom.a_img_src b) as [src|]; simpl; [|reflexivity].
  rewrite IH. destruct (forallb has_image bs); reflexivity.
Qed.

Lemma filter_kept_offerOf (bs : list Dom.badge) :
  List.filter kept (map offerOf bs) = map offerOf (List.filter badge_kept bs).
Proof.
  induction bs as [|b bs IH]; simpl; [reflexivity|].
  change (kept (offerOf b)) with (badge_kept b).
  destruct (badge_kept b); simpl; rewrite IH; reflexivity.
Qed.

(** What a successful parse is made of. *)
Lemma parseProduct_Return (dom : Dom.document) (p : Product.t) :
  parseProduct E dom = Return p ->
  exists sku name price currency src,
    Dom.sku_textContent dom = Some sku /\
    Dom.name_textContent dom = Some name /\
    Dom.price_content dom = Some price /\
    Dom.priceCurrency_content dom = Some (Some currency) /\
    Dom.main_image_src dom = Some src /\
    forallb has_image (Dom.offer_badges dom) = true /\
    p = Product.mk (env_StringToNumber E sku) (trim name)
          (Number_of_attribute E price) (toUpperCase (trim currency)) src
          (map trim (Dom.breadcrumbs dom))
          (map (toSizeEntry E) (Dom.size_selector dom))
          (map offerOf (List.filter badge_kept (Dom.offer_badges dom))).
Proof.
  unfold parseProduct. rewrite omap_toOffer.
  destruct (Dom.sku_textContent dom) as [sku|]; simpl; [|discriminate].
  destruct (Dom.name_textContent dom) as [name|]; simpl; [|discriminate].
  destruct (Dom.price_content dom) as [price|]; simpl; [|discriminate].
  destruct (Dom.priceCurrency_content dom) as [[currency|]|]; simpl;
    [|discriminate|discriminate].
  destruct (Dom.main_image_src dom) as [src|]; simpl; [|discriminate].
  destruct (forallb has_image (Dom.offer_badges dom)); simpl; [|discriminate].
  rewrite filter_kept_offerOf. intros [= <-].
  exists sku, name, price, currency, src. repeat split.
Qed.

(** Parsing fails with a TypeError only. *)
Lemma parseProduct_Throw (dom : Dom.document) (e : js_error) :
  parseProduct E dom = Throw e -> e = TypeError.
Proof.
  unfold parseProduct. rewrite omap_toOffer.
  destruct (Dom.sku_textContent dom) as [sku|]; simpl; [|congruence].
  destruct (Dom.name_textContent dom) as [name|]; simpl; [|congruence].
  destruct (Dom.price_content dom) as [price|]; simpl; [|congruence].
  destruct (Dom.priceCurrency_content dom) as [[currency|]|]; simpl;
    [|congruence|congruence].
  destruct (Dom.main_image_src dom) as [src|]; simpl; [|congruence].
  destruct (forallb has_image (Dom.offer_badges dom)); simpl; congruence.
Qed.

(** X2: parsing succeeds exactly on a page that has the five elements read
    without a guard, the attribute of the currency and an image in every
    badge, the ignored badges included; on any other page it throws a
    TypeError, never a partial Product. *)
Theorem parseProduct_complete_page (dom : Dom.document) :
  (page_complete dom = true <-> exists p, parseProduct E dom = Return p) /\
  (page_complete dom = false <-> parseProduct E dom = Throw TypeError).
Proof.
  assert (parseProduct E dom
          = if page_complete dom
            then parseProduct E dom else Throw TypeError) as Hcases.
  { unfold parseProduct, page_complete. rewrite omap_toOffer.
    fold has_image.
    destruct (Dom.sku_textContent dom) as [sku|]; simpl; [|reflexivity].
    destruct (Dom.name_textContent dom) as [name|]; simpl; [|reflexivity].
    destruct (Dom.price_content dom) as [price|]; simpl; [|reflexivity].
    destruct (Dom.priceCurrency_content dom) as [[currency|]|]; simpl;
      [|reflexivity|reflexivity].
    destruct (Dom.main_image_src dom) as [src|]; simpl; [|reflexivity].
    destruct (forallb has_image (Dom.offer_badges dom)); reflexivity. }
  assert (page_complete dom = true -> exists p, parseProduct E dom = Return p) as Hok.
  { unfold parseProduct, page_complete. rewrite omap_toOffer. fold has_image.
    destruct (Dom.sku_textContent dom) as [sku|]; simpl; [|discriminate].
    destruct (Dom.name_textContent dom) as [name|]; simpl; [|discriminate].
    destruct (Dom.price_content dom) as [price|]; simpl; [|discriminate].
    destruct (Dom.priceCurrency_content dom) as [[currency|]|]; simpl;
      [|discriminate|discriminate].
    destruct (Dom.main_image_src dom) as [src|]; simpl; [|discriminate].
    intros ->. simpl. eauto. }
  destruct (page_complete dom) eqn:Hc.
  - destruct (Hok eq_refl) as [p Hp]. split; split; try discriminate; eauto.
    rewrite Hp. discriminate.
  - split; split; try discriminate; auto.
    intros [p Hp]. rewrite Hcases in Hp. discriminate.
Qed.

End ParserFacts.

Section ProductShape.

Variable E : environment.

Lemma Forall2_map_of {A B} (P : A -> B -> Prop) (f : A -> B) (l : list A) :
  (forall a, P a (f a)) -> List.Forall2 P l (map f l).
Proof. intros H. induction l; simpl; constructor; auto. Qed.

Lemma drop_length (n : nat) (s : string) :
  String.length (drop n s) = (String.length s - n)%nat.
Proof.
  revert s. induction n as [|n IH]; intros [|c s]; simpl; auto.
Qed.

Lemma last_chars_length (n : nat) (s : string) :
  String.length (last_chars n s) = Nat.min n (String.length s).
Proof. unfold last_chars. rewrite drop_length. lia. Qed.

Lemma trimmed_upper (s : string) :
  trim (toUpperCase (trim s)) = toUpperCase (trim s) /\
  no_lower (toUpperCase (trim s)) = true.
Proof.
  split; [|apply toUpperCase_no_lower].
  rewrite trim_toUpperCase, trim_idempotent. reflexivity.
Qed.

(** X3: the texts of a parsed Product carry no white space around them:
    trimming the name, the currency or a category again changes nothing;
    the currency has no lower-case letter; and the categories are the
    trimmed breadcrumbs, one for each and in the order of the page. *)
Theorem parsed_texts_trimmed (dom : Dom.document) (p : Product.t) :
  parseProduct E dom = Return p ->
  trim (Product.name p) = Product.name p /\
  trim (Product.currency p) = Product.currency p /\
  no_lower (Product.currency p) = true /\
  List.Forall2 (fun crumb category => category = trim crumb /\ trim category = category)
    (Dom.breadcrumbs dom) (Product.categories p).
Proof.
  intros Hparse.
  destruct (parseProduct_Return E dom p Hparse)
    as (sku & name & price & currency & src & _ & _ & _ & _ & _ & _ & ->).
  cbn [Product.name Product.currency Product.categories].
  split; [apply trim_idempotent|]. split; [apply trimmed_upper|].
  split; [apply trimmed_upper|].
  apply Forall2_map_of. intros crumb. split; [reflexivity|apply trim_idempotent].
Qed.

(** X4: the size range of a parsed Product has one entry for each size
    element, in the order of the page; the label is trimmed and has no
    lower-case letter; the code is the end of the trimmed identifier, three
    characters long, or the whole identifier when that is shorter. *)
Theorem parsed_size_range (dom : Dom.document) (p : Product.t) :
  parseProduct E dom = Return p ->
  List.Forall2
    (fun li entry =>
       trim (SizeEntry.size entry) = SizeEntry.size entry /\
       no_lower (SizeEntry.size entry) = true /\
       SizeEntry.stock_warehouse entry = env_StringToNumber E (Dom.li_data_qty li) /\
       SizeEntry.code entry = last_chars 3 (trim (Dom.li_data_id li)) /\
       String.length (SizeEntry.code entry)
       = Nat.min 3 (String.length (trim (Dom.li_data_id li))))
    (Dom.size_selector dom) (Product.sizeRange p).
Proof.
  intros Hparse.
  destruct (parseProduct_Return E dom p Hparse)
    as (sku & name & price & currency & src & _ & _ & _ & _ & _ & _ & ->).
  cbn [Product.sizeRange]. apply Forall2_map_of. intros li.
  unfold toSizeEntry. cbn [SizeEntry.size SizeEntry.stock_warehouse SizeEntry.code].
  split; [apply trimmed_upper|]. split; [apply trimmed_upper|].
  split; [reflexivity|]. split; [reflexivity|apply last_chars_length].
Qed.

(** X5: the offers of a parsed Product are made of the badges the
    ignore-list lets through, one for each and in the order of the page:
    the name is the trimmed title, the image the source of the badge's
    image, the abbreviation that of the untrimmed title. There are never
    more offers than badges. *)
Theorem parsed_offers_in_order (dom : Dom.document) (p : Product.t) :
  parseProduct E dom = Return p ->
  List.Forall2
    (fun b offer =>
       Offer.name offer = trim (Dom.a_title b) /\
       Dom.a_img_src b = Some (Offer.image offer) /\
       abbreviateOffer (Dom.a_title b) = Return (Offer.abbr offer))
    (List.filter badge_kept (Dom.offer_badges dom)) (Product.offers p) /\
  (List.length (Product.offers p) <= List.length (Dom.offer_badges dom))%nat.
Proof.
  intros Hparse.
  destruct (parseProduct_Return E dom p Hparse)
    as (sku & name & price & currency & src & _ & _ & _ & _ & _ & Himg & ->).
  cbn [Product.offers]. split.
  - rewrite forallb_forall in Himg.
    assert (forall b, In b (List.filter badge_kept (Dom.offer_badges dom)) ->
              has_image b = true) as Hkept.
    { intros b Hb. apply filter_In in Hb. apply Himg, Hb. }
    revert Hkept. clear Hparse Himg.
    induction (List.filter badge_kept (Dom.offer_badges dom)) as [|b bs IH];
      intros Hkept; simpl; constructor.
    + split; [reflexivity|]. split; [|apply abbreviateOffer_abbreviation].
      specialize (Hkept b (or_introl eq_refl)). unfold has_image in Hkept.
      unfold offerOf. cbn [Offer.image].
      destruct (Dom.a_img_src b); [reflexivity|discriminate].
    + apply IH. intros b' Hb'. apply Hkept. right. exact Hb'.
  - rewrite length_map. apply filter_length_le.
Qed.

End ProductShape.

(** *** fetchWebpage and getProductInfo *)

Section PageCacheFacts.

Variable E : environment.

(** X6: with a falsy time to live fetchWebpage neither looks into the
    cache nor writes to it: its only event is the fetch of the page, it
    never resolves with a cached value, and the [setCache] callback it
    hands out returns at once and changes nothing. *)
Theorem fetchWebpage_without_cache (pathname : string) (w : world) :
  events_since w (snd (fetchWebpage E pathname 0 w))
  = [EvFromURL (env_SZSITE E ++ pathname)] /\
  caches_of (snd (fetchWebpage E pathname 0 w)) = caches_of w /\
  (forall product, fst (fetchWebpage E pathname 0 w) <> Return (FromCache product)) /\
  (forall jsdom setCache,
     fst (fetchWebpage E pathname 0 w) = Return (Live jsdom setCache) ->
     env_upstream_page E (List.length (trace w)) (env_SZSITE E ++ pathname)
     = Return jsdom /\
     forall product w', setCache product w' = (Return tt, w')).
Proof.
  unfold fetchWebpage. change (0 =? 0) with true. cbv iota.
  unfold fetchLive, bind, JSDOM_fromURL, ret.
  destruct (env_upstream_page E (List.length (trace w)) (env_SZSITE E ++ pathname))
    as [dom|e]; cbn [fst snd].
  - split; [apply events_since_app; reflexivity|]. split; [reflexivity|].
    split; [discriminate|]. intros jsdom setCache [= <- <-].
    split; [reflexivity|]. intros product w'. reflexivity.
  - split; [apply events_since_app; reflexivity|]. split; [reflexivity|].
    split; discriminate.
Qed.

Lemma fetchWebpage_cases (pathname : string) (cacheTTL : Z) (w : world) :
  cacheTTL <> 0 ->
  fetchWebpage E pathname cacheTTL w =
  let key := cacheKey_page pathname in
  let w1 := log (EvGetKey Products key) w in
  match products w !! key with
  | None => fetchLive E pathname key cacheTTL w1
  | Some entry =>
      if timestamp entry =? 0 then fetchLive E pathname key cacheTTL w1
      else if env_clock E (S (List.length (trace w))) - timestamp entry <? cacheTTL
           then (Return (FromCache (value entry)), log EvClock w1)
           else fetchLive E pathname key cacheTTL (log EvClock w1)
  end.
Proof.
  intros Httl. unfold fetchWebpage.
  destruct (Z.eqb_spec cacheTTL 0) as [|_]; [contradiction|].
  unfold bind at 1. unfold Cache.getKey_products. cbv zeta.
  destruct (products w !! cacheKey_page pathname) as [entry|]; [|reflexivity].
  destruct (timestamp entry =? 0); [reflexivity|].
  unfold bind at 1. unfold Date_now at 1.
  change (List.length (trace (log (EvGetKey Products (cacheKey_page pathname)) w)))
    with (S (List.length (trace w))).
  destruct (_ <? cacheTTL); reflexivity.
Qed.

(** X7: with a time to live other than 0, fetchWebpage resolves with a
    cached value exactly when the key has an entry whose timestamp is not 0
    and the clock reads less than the time to live past it. An entry with
    the timestamp 0 is never served; an entry stamped later than the clock
    reads is served. A served value is the value of the entry, nothing is
    fetched and the caches stay as they are. *)
Theorem fetchWebpage_serves_fresh_entries (pathname : string) (cacheTTL : Z)
  (w : world) :
  cacheTTL <> 0 ->
  let now := env_clock E (S (List.length (trace w))) in
  let served entry := timestamp entry <> 0 /\ now - timestamp entry < cacheTTL in
  (forall product,
     fst (fetchWebpage E pathname cacheTTL w) = Return (FromCache product) <->
     exists entry, products w !! cacheKey_page pathname = Some entry /\
                   served entry /\ value entry = product) /\
  (forall entry,
     products w !! cacheKey_page pathname = Some entry -> served entry ->
     events_since w (snd (fetchWebpage E pathname cacheTTL w))
     = [EvClock; EvGetKey Products (cacheKey_page pathname)] /\
     caches_of (snd (fetchWebpage E pathname cacheTTL w)) = caches_of w).
Proof.
  intros Httl now served. rewrite (fetchWebpage_cases pathname cacheTTL w Httl).
  cbv zeta. fold now.
  assert (forall w0 product,
            fst (fetchLive E pathname (cacheKey_page pathname) cacheTTL w0)
            <> Return (FromCache product)) as Hlive.
  { intros w0 product. unfold fetchLive, bind, JSDOM_fromURL, ret.
    destruct (env_upstream_page E _ _); cbn [fst]; discriminate. }
  destruct (products w !! cacheKey_page pathname) as [entry|] eqn:Hlook.
  - destruct (Z.eqb_spec (timestamp entry) 0) as [Hzero|Hts].
    + split.
      * intros product. split; [intros H; exfalso; exact (Hlive _ _ H)|].
        intros (entry' & [= <-] & [Hts _] & _). contradiction.
      * intros entry' [= <-] [Hts _]. contradiction.
    + destruct (Z.ltb_spec (now - timestamp entry) cacheTTL) as [Hfresh|Hold].
      * cbn [fst snd]. split.
        -- intros product. split.
           ++ intros [= <-]. exists entry. repeat split; assumption.
           ++ intros (entry' & [= <-] & _ & <-). reflexivity.
        -- intros entry' [= <-] _. split; [|reflexivity].
           apply events_since_app. reflexivity.
      * split.
        -- intros product. split; [intros H; exfalso; exact (Hlive _ _ H)|].
           intros (entry' & [= <-] & [_ Hlt] & _). lia.
        -- intros entry' [= <-] [_ Hlt]. lia.
  - split.
    + intros product. split; [intros H; exfalso; exact (Hlive _ _ H)|].
      intros (entry' & Hsome & _). discriminate.
    + intros entry' Hsome. discriminate.
Qed.

Lemma baseStyleCode_again (styleCode : string) :
  (String.length styleCode < 11)%nat ->
  baseStyleCode (baseStyleCode styleCode) = baseStyleCode styleCode.
Proof.
  intros Hlen. unfold baseStyleCode at 2 3.
  destruct (Z.leb_spec 5 (Z.of_nat (String.length styleCode) - 3)) as [Hge|Hlt].
  - unfold baseStyleCode. rewrite take_length.
    destruct (Z.leb_spec 5
                (Z.of_nat (Nat.min (String.length styleCode - 3)
                                   (String.length styleCode)) - 3)); [lia|].
    reflexivity.
  - unfold baseStyleCode.
    destruct (Z.leb_spec 5 (Z.of_nat (String.length styleCode) - 3)); [lia|].
    reflexivity.
Qed.

(** X8: for a style code of fewer than 11 characters, asking for the code
    with its size code and asking for the code already stripped of it are
    the same call: the same key, the same address, the same result and the
    same world afterwards. *)
Theorem getProductInfo_base_code (styleCode : string) (storeId : jsval) (w : world) :
  (String.length styleCode < 11)%nat ->
  page_key (baseStyleCode styleCode) = page_key styleCode /\
  getProductInfo E (baseStyleCode styleCode) storeId w
  = getProductInfo E styleCode storeId w.
Proof.
  intros Hlen.
  assert (productPath (baseStyleCode styleCode) = productPath styleCode) as Hpath.
  { unfold productPath. rewrite baseStyleCode_again by exact Hlen. reflexivity. }
  split; [unfold page_key; rewrite Hpath; reflexivity|].
  unfold getProductInfo. rewrite Hpath. reflexivity.
Qed.

Lemma upstream_count_app (a b : list event) :
  upstream_count (a ++ b) = (upstream_count a + upstream_count b)%nat.
Proof. unfold upstream_count. rewrite List.filter_app, length_app. reflexivity. Qed.

(** What the live path does, whatever its outcome. *)
Lemma live_product_outcome (styleCode : string) (w : world) :
  let r := live_product E styleCode w in
  (locator (snd r), locator_file (snd r)) = (locator w, locator_file w) /\
  exists new,
    trace (snd r) = (new ++ EvFromURL (page_url E styleCode) :: trace w)%list /\
    List.Forall (fun e => event_domain e <> Some Locator) new /\
    upstream_count new = 0%nat /\
    (forall e, fst r = Throw e ->
       (new = [] /\ caches_of (snd r) = caches_of w /\
        (e = TypeError \/ page_reply E styleCode w = Throw e)) \/
       (exists message p,
          e = CacheIOFailure message /\
          new = [EvSave Products; EvSetKey Products (page_key styleCode); EvClock] /\
          env_write_error E (S (S (S (List.length (trace w))))) Products = Some message /\
          products (snd r)
          = <[page_key styleCode :=
                mk_entry (env_clock E (S (List.length (trace w)))) p]> (products w) /\
          products_file (snd r) = products_file w)).
Proof.
  assert (List.Forall (fun e => event_domain e <> Some Locator)
            [EvSave Products; EvSetKey Products (page_key styleCode); EvClock]) as Hnew.
  { repeat constructor; discriminate. }
  unfold live_product.
  destruct (page_reply E styleCode w) as [dom|e0] eqn:Hpage; simpl.
  - destruct (parseProduct E dom) as [p|e0] eqn:Hparse; simpl.
    + destruct (env_write_error E _ Products) as [message|] eqn:Hwrite; simpl.
      * split; [reflexivity|].
        exists [EvSave Products; EvSetKey Products (page_key styleCode); EvClock].
        split; [reflexivity|]. split; [exact Hnew|]. split; [reflexivity|].
        intros e [= <-]. right. exists message, p. repeat split.
      * split; [reflexivity|].
        exists [EvSave Products; EvSetKey Products (page_key styleCode); EvClock].
        split; [reflexivity|]. split; [exact Hnew|]. split; [reflexivity|].
        discriminate.
    + split; [reflexivity|]. exists []. split; [reflexivity|].
      split; [constructor|]. split; [reflexivity|].
      intros e [= <-]. left. split; [reflexivity|]. split; [reflexivity|]. left.
      exact (parseProduct_Throw E dom e0 Hparse).
  - split; [reflexivity|]. exists []. split; [reflexivity|].
    split; [constructor|]. split; [reflexivity|].
    intros e [= <-]. left. split; [reflexivity|]. split; [reflexivity|].
    right. reflexivity.
Qed.

Lemma getProductInfo_frame (styleCode : string) (storeId : jsval) (w : world) :
  let r := getProductInfo E styleCode storeId w in
  let evs := events_since w (snd r) in
  (locator (snd r), locator_file (snd r)) = (locator w, locator_file w) /\
  List.Forall (fun e => event_domain e <> Some Locator) evs /\
  (upstream_count evs <= 1)%nat /\
  (forall e, fst r = Throw e ->
     (caches_of (snd r) = caches_of w /\
      (e = TypeError \/
       exists pre,
         evs = EvFromURL (page_url E styleCode) :: pre /\
         env_upstream_page E (List.length pre + List.length (trace w))
           (page_url E styleCode) = Throw e)) \/
     (exists message p t pre,
        e = CacheIOFailure message /\
        evs = EvSave Products :: pre /\
        env_write_error E (List.length pre + List.length (trace w)) Products
        = Some message /\
        products (snd r) = <[page_key styleCode := mk_entry t p]> (products w) /\
        products_file (snd r) = products_file w)).
Proof.
  cbv zeta. rewrite getProductInfo_cases. cbv zeta.
  assert (forall w0 pre,
            trace w0 = (pre ++ trace w)%list ->
            caches_of w0 = caches_of w ->
            List.Forall (fun e => event_domain e <> Some Locator) pre ->
            upstream_count pre = 0%nat ->
            let r := live_product E styleCode w0 in
            let evs := events_since w (snd r) in
            (locator (snd r), locator_file (snd r)) = (locator w, locator_file w) /\
            List.Forall (fun e => event_domain e <> Some Locator) evs /\
            (upstream_count evs <= 1)%nat /\
            (forall e, fst r = Throw e ->
               (caches_of (snd r) = caches_of w /\
                (e = TypeError \/
                 exists pre,
                   evs = EvFromURL (page_url E styleCode) :: pre /\
                   env_upstream_page E (List.length pre + List.length (trace w))
                     (page_url E styleCode) = Throw e)) \/
               (exists message p t pre,
                  e = CacheIOFailure message /\
                  evs = EvSave Products :: pre /\
                  env_write_error E (List.length pre + List.length (trace w)) Products
                  = Some message /\
                  products (snd r) = <[page_key styleCode := mk_entry t p]> (products w) /\
                  products_file (snd r) = products_file w))) as Hlive.
  { intros w0 pre Htrace Hcaches Hpre Hcount. cbv zeta.
    destruct (live_product_outcome styleCode w0) as (Hloc & new & Hnew & Hdom & Hup & Hfail).
    cbv zeta in Hloc, Hnew, Hfail.
    assert (List.length (trace w0) = (List.length pre + List.length (trace w))%nat)
      as Hlen by (rewrite Htrace, length_app; reflexivity).
    assert (events_since w (snd (live_product E styleCode w0))
            = (new ++ EvFromURL (page_url E styleCode) :: pre)%list) as Hev.
    { apply events_since_app. rewrite Hnew, Htrace, <- app_assoc. reflexivity. }
    rewrite Hev. unfold caches_of in Hcaches. split; [congruence|]. split.
    { apply List.Forall_app. split; [exact Hdom|].
      constructor; [discriminate|exact Hpre]. }
    split.
    { rewrite upstream_count_app, Hup.
      change (upstream_count (EvFromURL (page_url E styleCode) :: pre))
        with (S (upstream_count pre)). rewrite Hcount. lia. }
    intros e He. destruct (Hfail e He) as [(-> & Hsame & Herr)|Hwrite].
    - left. split; [unfold caches_of in *; congruence|].
      destruct Herr as [->|Hrep]; [left; reflexivity|right].
      exists pre. split; [reflexivity|].
      unfold page_reply in Hrep. rewrite <- Hlen. exact Hrep.
    - right. destruct Hwrite as (message & p & -> & -> & Hw & Hprod & Hfile).
      exists message, p, (env_clock E (S (List.length (trace w0)))),
        ([EvSetKey Products (page_key styleCode); EvClock;
          EvFromURL (page_url E styleCode)] ++ pre)%list.
      split; [reflexivity|]. split; [reflexivity|]. split.
      { rewrite length_app. cbn [List.length Nat.add]. rewrite <- Hlen. exact Hw. }
      split; [rewrite Hprod; congruence|congruence]. }
  assert (List.Forall (fun e => event_domain e <> Some Locator)
            [EvGetKey Products (page_key styleCode)]) as H1
    by (repeat constructor; discriminate).
  assert (List.Forall (fun e => event_domain e <> Some Locator)
            [EvClock; EvGetKey Products (page_key styleCode)]) as H2
    by (repeat constructor; discriminate).
  destruct (products w !! page_key styleCode) as [entry|];
    [|apply (Hlive _ [EvGetKey Products (page_key styleCode)]); auto].
  destruct (timestamp entry =? 0);
    [apply (Hlive _ [EvGetKey Products (page_key styleCode)]); auto|].
  destruct (_ <? 60000);
    [|apply (Hlive _ [EvClock; EvGetKey Products (page_key styleCode)]); auto].
  cbn [fst snd].
  rewrite (events_since_app w _ [EvClock; EvGetKey Products (page_key styleCode)])
    by reflexivity.
  split; [reflexivity|]. split; [exact H2|]. split; [unfold upstream_count; simpl; lia|].
  discriminate.
Qed.


End PageCacheFacts.

(** *** locateStore *)

Section LocatorEffects.

Variable E : environment.
Variables lat lon city postcode : jsval.

Let key := locate_key E lat lon city postcode.

(** The call, path by path. *)
Lemma locateStore_cases (w : world) :
  locateStore E lat lon city postcode w =
  let w0 := log (EvGetKey Locator key) w in
  match locator w !! key with
  | Some store => (Return store, w0)
  | None =>
      match PostCode_of postcode with
      | Throw e => (Throw e, w0)
      | Return PostCode =>
          let w1 := log (EvPost (locate_url E)
                           (locate_request E lat lon city PostCode)) w0 in
          match locate_reply E lat lon city PostCode w with
          | Throw e => (Throw e, w1)
          | Return payload =>
              match get_prop payload "Stores", get_prop payload "ErrorMsg" with
              | Return Stores, Return ErrorMsg =>
                  if is_null Stores && truthy ErrorMsg then
                    (Throw (HttpError (ToString E ErrorMsg) 400
                              (env_clock E (S (S (List.length (trace w)))))),
                     log EvClock w1)
                  else
                    match obind (get_index0 Stores) (toStore E) with
                    | Throw e => (Throw e, w1)
                    | Return data =>
                        let events :=
                          EvSave Locator :: EvSetKey Locator key :: trace w1 in
                        match env_write_error E (S (S (S (List.length (trace w)))))
                                Locator with
                        | Some message =>
                            (Throw (CacheIOFailure message),
                             mk_world (<[key := data]> (locator w)) (locator_file w)
                                      (products w) (products_file w) events)
                        | None =>
                            (Return data,
                             mk_world (<[key := data]> (locator w))
                                      (<[key := data]> (locator w))
                                      (products w) (products_file w) events)
                        end
                    end
              | _, _ => (Throw TypeError, w1)
              end
          end
      end
  end.
Proof.
  unfold locateStore, bind, Cache.getKey_locator, ret, lift, axios_post.
  fold (locate_coordinate E lat). fold (locate_coordinate E lon).
  fold (locate_key E lat lon city postcode). fold key. cbv zeta.
  destruct (locator w !! key) as [store|]; [reflexivity|].
  destruct (PostCode_of postcode) as [PostCode|e]; [|reflexivity].
  fold (locate_url E). fold (locate_request E lat lon city PostCode).
  unfold locate_reply. simpl.
  destruct (env_upstream_post E _ _ _) as [payload|e]; [|reflexivity].
  destruct (get_prop payload "Stores") as [Stores|e] eqn:HS.
  - destruct (get_prop payload "ErrorMsg") as [ErrorMsg|e] eqn:HM.
    + destruct (is_null Stores && truthy ErrorMsg); [reflexivity|].
      unfold lift. destruct (get_index0 Stores) as [first|e]; simpl; [|reflexivity].
      destruct (toStore E first) as [data|e]; [|reflexivity].
      unfold Cache.save_locator. simpl.
      destruct (env_write_error E _ Locator); reflexivity.
    + destruct payload; simpl in HS, HM; discriminate.
  - apply get_prop_Throw in HS. subst e. reflexivity.
Qed.


(** X11: a Store that locateStore returns is in the locator cache under
    the key of the call when the call ends, and any call whose arguments
    give the same key then returns that Store after the look-up alone,
    without a request. *)
Theorem locateStore_reads_its_write (w : world) (store : Store.t) :
  fst (locateStore E lat lon city postcode w) = Return store ->
  let w' := snd (locateStore E lat lon city postcode w) in
  locator w' !! key = Some store /\
  (forall lat' lon' city' postcode',
     locate_key E lat' lon' city' postcode' = key ->
     locateStore E lat' lon' city' postcode' w'
     = (Return store, log (EvGetKey Locator key) w')).
Proof.
  intros Hres w'.
  assert (locator w' !! key = Some store) as Hcached.
  { subst w'. revert Hres. rewrite locateStore_cases. cbv zeta.
    destruct (locator w !! key) as [store0|] eqn:Hlook.
    { intros [= <-]. exact Hlook. }
    destruct (PostCode_of postcode) as [PostCode|e0]; [|discriminate].
    destruct (locate_reply E lat lon city PostCode w) as [payload|e0]; [|discriminate].
    destruct (get_prop payload "Stores") as [Stores|e0];
      [destruct (get_prop payload "ErrorMsg") as [ErrorMsg|e1]|];
      [|discriminate|discriminate].
    destruct (is_null Stores && truthy ErrorMsg); [discriminate|].
    destruct (obind (get_index0 Stores) (toStore E)) as [data|e0]; [|discriminate].
    destruct (env_write_error E _ Locator); [discriminate|].
    intros [= <-]. cbn [snd locator]. apply lookup_insert_eq. }
  split; [exact Hcached|].
  intros lat' lon' city' postcode' Hkey.
  rewrite (locateStore_hit E lat' lon' city' postcode' w' store);
    rewrite Hkey; [reflexivity|exact Hcached].
Qed.

End LocatorEffects.

Section LocatorTexts.

Variable E : environment.

Lemma lower_char_blank (c : ascii) : is_blank (lower_char c) = is_blank c.
Proof. destruct c as [[] [] [] [] [] [] [] []]; vm_compute; reflexivity. Qed.

Lemma toLowerCase_toUpperCase (s : string) :
  toLowerCase (toUpperCase s) = toLowerCase s.
Proof.
  unfold toLowerCase, toUpperCase. induction s as [|c s IH]; simpl; [reflexivity|].
  rewrite lower_upper_char, IH. reflexivity.
Qed.

Lemma map_chars_join (f : ascii -> ascii) (sep : string) (l : list string) :
  map_chars f (join sep l) = join (map_chars f sep) (map (map_chars f) l).
Proof.
  induction l as [|w ws IH]; [reflexivity|].
  destruct ws as [|w' ws']; [reflexivity|].
  change (join sep (w :: w' :: ws')) with (w ++ sep ++ join sep (w' :: ws')).
  rewrite !map_chars_app, IH. reflexivity.
Qed.

Lemma split_on_map_chars (sep : ascii -> bool) (f : ascii -> ascii) (s : string) :
  (forall c, sep (f c) = sep c) ->
  split_on sep (map_chars f s) = map (map_chars f) (split_on sep s).
Proof.
  intros Hsep. induction s as [|c s IH]; simpl; [reflexivity|].
  rewrite Hsep, IH. destruct (sep c); [reflexivity|].
  destruct (split_on sep s); reflexivity.
Qed.

Lemma map_chars_empty (f : ascii -> ascii) (s : string) :
  map_chars f s = EmptyString -> s = EmptyString.
Proof. destruct s; simpl; [reflexivity|discriminate]. Qed.

Lemma lower_char_not_upper (c : ascii) : is_upper (lower_char c) = false.
Proof. destruct c as [[] [] [] [] [] [] [] []]; vm_compute; reflexivity. Qed.

Lemma toLowerCase_no_upper (s : string) : no_upper (toLowerCase s) = true.
Proof.
  unfold no_upper, toLowerCase. induction s as [|c s IH]; simpl; [reflexivity|].
  rewrite lower_char_not_upper. exact IH.
Qed.

Lemma locate_key_lower (lat lon city postcode : jsval) :
  toLowerCase (locate_key E lat lon city postcode)
  = locate_key E lat lon city postcode.
Proof.
  rewrite locate_key_parts.
  unfold toLowerCase at 1. rewrite map_chars_app, map_chars_join.
  fold toLowerCase. f_equal. f_equal. cbn [map app].
  rewrite !toLowerCase_idempotent. f_equal. f_equal.
  rewrite map_app. unfold key_part.
  destruct (is_undefined city), (is_undefined postcode); cbn [map app];
    rewrite ?toLowerCase_idempotent; reflexivity.
Qed.

(** X12: the key of the locator cache has no upper-case letter of A to Z,
    whatever the arguments. Cities and postcodes of ASCII characters that
    differ in the case of their letters only share a key, so a city or a
    postcode and its upper-case form do. A coordinate that is absent, not
    a number, or zero counts as 0 and is written "0.00". *)
Theorem locate_key_normalised :
  (forall lat lon city postcode,
     no_upper (locate_key E lat lon city postcode) = true) /\
  (forall lat lon c1 c2 p1 p2,
     is_ascii_string c1 = true -> is_ascii_string c2 = true ->
     is_ascii_string p1 = true -> is_ascii_string p2 = true ->
     toLowerCase c1 = toLowerCase c2 -> toLowerCase p1 = toLowerCase p2 ->
     locate_key E lat lon (JStr c1) (JStr p1) = locate_key E lat lon (JStr c2) (JStr p2)) /\
  (forall lat lon c p,
     is_ascii_string c = true -> is_ascii_string p = true ->
     locate_key E lat lon (JStr (toUpperCase c)) (JStr (toUpperCase p))
     = locate_key E lat lon (JStr c) (JStr p)) /\
  (forall v, number_truthy (ToNumber E v) = false -> locate_coordinate E v = "0.00") /\
  locate_coordinate E JUndefined = "0.00".
Proof.
  split; [|split; [|split; [|split]]].
  - intros lat lon city postcode. rewrite <- locate_key_lower.
    apply toLowerCase_no_upper.
  - intros lat lon c1 c2 p1 p2 _ _ _ _ Hc Hp. rewrite !locate_key_parts.
    unfold key_part. cbn [is_undefined ToString]. rewrite Hc, Hp. reflexivity.
  - intros lat lon c p _ _. rewrite !locate_key_parts.
    unfold key_part. cbn [is_undefined ToString].
    rewrite !toLowerCase_toUpperCase. reflexivity.
  - intros v Hv. unfold locate_coordinate, or_zero. rewrite Hv. reflexivity.
  - reflexivity.
Qed.

(** X13: the postcode sent to the upstream site is the postcode of the
    query without its blanks and in upper case, so it has no blank and no
    lower-case letter; a falsy postcode is sent as the empty string; a
    truthy postcode that is not a string makes a call that misses the
    cache fail with a TypeError before any request is sent. *)
Theorem postcode_sent_upstream :
  (forall s,
     PostCode_of (JStr s)
     = Return (toUpperCase (filter_chars (fun c => negb (is_blank c)) s)) /\
     no_blank (toUpperCase (filter_chars (fun c => negb (is_blank c)) s)) = true /\
     no_lower (toUpperCase (filter_chars (fun c => negb (is_blank c)) s)) = true) /\
  (forall postcode, truthy postcode = false -> PostCode_of postcode = Return "") /\
  (forall lat lon city postcode w,
     truthy postcode = true -> (forall s, postcode <> JStr s) ->
     locator w !! locate_key E lat lon city postcode = None ->
     locateStore E lat lon city postcode w
     = (Throw TypeError,
        log (EvGetKey Locator (locate_key E lat lon city postcode)) w)).
Proof.
  split; [|split].
  - intros s. split; [|split].
    + unfold PostCode_of. destruct s as [|c s]; [reflexivity|].
      cbn [truthy String.eqb negb as_string obind].
      rewrite join_empty_split_on. reflexivity.
    + unfold no_blank, toUpperCase.
      induction s as [|c s IH]; simpl; [reflexivity|].
      destruct (is_blank c) eqn:Hc; simpl; [exact IH|].
      rewrite upper_char_blank, Hc. exact IH.
    + apply toUpperCase_no_lower.
  - intros postcode Hf. unfold PostCode_of. rewrite Hf. reflexivity.
  - intros lat lon city postcode w Ht Hns Hmiss.
    rewrite locateStore_cases. cbv zeta. rewrite Hmiss.
    unfold PostCode_of. rewrite Ht.
    destruct postcode; try reflexivity. exfalso. eapply Hns. reflexivity.
Qed.

Lemma omap_titleWord_Return (ws names : list string) :
  omap titleWord ws = Return names ->
  ~ In EmptyString ws /\ map toLowerCase names = map toLowerCase ws.
Proof.
  revert names. induction ws as [|w ws IH]; simpl; intros names H.
  - injection H as <-. split; [intros []|reflexivity].
  - destruct w as [|c rest]; simpl in H; [discriminate|].
    destruct (omap titleWord ws) as [names'|e]; simpl in H; [|discriminate].
    injection H as <-. destruct (IH names' eq_refl) as [Hne Hlow]. split.
    + intros [H|H]; [discriminate|contradiction].
    + cbn [map]. rewrite Hlow. f_equal. unfold toLowerCase. simpl.
      rewrite lower_upper_char. reflexivity.
Qed.

Lemma omap_titleWord_empty (ws : list string) :
  In EmptyString ws -> omap titleWord ws = Throw TypeError.
Proof.
  induction ws as [|w ws IH]; simpl; [intros []|].
  intros [->|Hin]; [reflexivity|].
  destruct w as [|c rest]; simpl; [reflexivity|]. rewrite (IH Hin). reflexivity.
Qed.

(** X14: when a Store is made of a candidate, the display line and the
    telephone are strings; no word of the display line is empty; the phone
    number is the telephone without its blanks; the address joins the three
    fields with ", "; the identifier is the number of the key. When the
    display line is of ASCII characters, the name of the Store is the
    display line up to the case of its letters and has its length. A
    display line with an empty piece between its blanks (the empty line, a
    line with a blank at an end or with two blanks in a row) makes the
    construction fail with a TypeError. *)
Theorem toStore_shape (data : jsval) :
  (forall store,
     toStore E data = Return store ->
     exists line phone Key Property Street PostCode,
       get_prop data "DisplayLine1" = Return (JStr line) /\
       get_prop data "Telephone" = Return (JStr phone) /\
       get_prop data "Key" = Return Key /\
       get_prop data "Property" = Return Property /\
       get_prop data "Street" = Return Street /\
       get_prop data "PostCode" = Return PostCode /\
       ~ In EmptyString (split_on is_blank line) /\
       (is_ascii_string line = true ->
        toLowerCase (Store.storeName store) = toLowerCase line /\
        String.length (Store.storeName store) = String.length line) /\
       Store.storeId store = ToNumber E Key /\
       Store.storeAddress store
       = ToString E Property ++ ", " ++ ToString E Street ++ ", " ++ ToString E PostCode /\
       Store.storePhone store = filter_chars (fun c => negb (is_blank c)) phone /\
       no_blank (Store.storePhone store) = true) /\
  (forall line,
     get_prop data "DisplayLine1" = Return (JStr line) ->
     In EmptyString (split_on is_blank line) ->
     toStore E data = Throw TypeError).
Proof.
  assert (forall line, split_on is_blank (toLowerCase line)
                       = map toLowerCase (split_on is_blank line)) as Hsplit.
  { intros line. apply split_on_map_chars. apply lower_char_blank. }
  split.
  - intros store. unfold toStore.
    destruct (get_prop data "DisplayLine1") as [[| | | |line| |]|] eqn:HD; simpl;
      try discriminate.
    destruct (omap titleWord (split_on is_blank (toLowerCase line)))
      as [names|] eqn:Hnames; simpl; [|discriminate].
    destruct (get_prop data "Key") as [Key|]; simpl; [|discriminate].
    destruct (get_prop data "Property") as [Property|]; simpl; [|discriminate].
    destruct (get_prop data "Street") as [Street|]; simpl; [|discriminate].
    destruct (get_prop data "PostCode") as [PostCode|]; simpl; [|discriminate].
    destruct (get_prop data "Telephone") as [[| | | |phone| |]|]; simpl;
      try discriminate.
    intros [= <-]. cbn [Store.storeName Store.storeId Store.storeAddress Store.storePhone].
    destruct (omap_titleWord_Return _ _ Hnames) as [Hne Hlow].
    assert (toLowerCase (join " " names) = toLowerCase line) as Hname.
    { unfold toLowerCase at 1. rewrite map_chars_join. fold toLowerCase.
      rewrite Hlow. change (map_chars lower_char " ") with " ".
      rewrite <- Hsplit, toLowerCase_idempotent.
      apply (join_split_on is_blank " "%char blank_char). }
    exists line, phone, Key, Property, Street, PostCode.
    repeat (split; [reflexivity|]).
    split.
    { rewrite Hsplit in Hne. intros Hin. apply Hne.
      apply in_map_iff. exists EmptyString. split; [reflexivity|exact Hin]. }
    split.
    { intros _. split; [exact Hname|].
      rewrite <- (length_map_chars lower_char (join " " names)).
      fold (toLowerCase (join " " names)). rewrite Hname.
      apply length_map_chars. }
    split; [reflexivity|]. split; [reflexivity|].
    rewrite join_empty_split_on. split; [reflexivity|].
    apply (filter_chars_all (fun c => negb (is_blank c))).
  - intros line HD Hin. unfold toStore. rewrite HD. simpl.
    rewrite Hsplit, omap_titleWord_empty; [reflexivity|].
    apply in_map_iff. exists EmptyString. split; [reflexivity|exact Hin].
Qed.

End LocatorTexts.

Section CoordinateFacts.

Variable E : environment.

Lemma string_of_uint_digits (d : Decimal.uint) :
  all_chars is_digit (NilEmpty.string_of_uint d) = true.
Proof. induction d; simpl; auto. Qed.

Lemma digits_chars (n : Z) :
  all_chars is_digit (digits n) = true /\ digits n <> EmptyString.
Proof.
  unfold digits, NilZero.string_of_uint.
  destruct (N.to_uint (Z.to_N n)) as [|d|d|d|d|d|d|d|d|d|d];
    (split; [first [reflexivity|apply (string_of_uint_digits (Decimal.D0 d))
                   |apply (string_of_uint_digits (Decimal.D1 d))
                   |apply (string_of_uint_digits (Decimal.D2 d))
                   |apply (string_of_uint_digits (Decimal.D3 d))
                   |apply (string_of_uint_digits (Decimal.D4 d))
                   |apply (string_of_uint_digits (Decimal.D5 d))
                   |apply (string_of_uint_digits (Decimal.D6 d))
                   |apply (string_of_uint_digits (Decimal.D7 d))
                   |apply (string_of_uint_digits (Decimal.D8 d))
                   |apply (string_of_uint_digits (Decimal.D9 d))]
            |simpl; discriminate]).
Qed.

Lemma pad3_chars (m : string) :
  all_chars is_digit m = true ->
  all_chars is_digit (pad3 m) = true /\ (3 <= String.length (pad3 m))%nat.
Proof.
  intros Hm. unfold pad3.
  destruct m as [|a [|b [|c m]]]; simpl in *; (split; [assumption|lia]).
Qed.

Lemma all_chars_take (p : ascii -> bool) (n : nat) (s : string) :
  all_chars p s = true -> all_chars p (take n s) = true.
Proof.
  revert s. induction n as [|n IH]; intros [|c s]; simpl; auto.
  rewrite !andb_true_iff. intros [Hc Hs]. auto.
Qed.

Lemma all_chars_drop (p : ascii -> bool) (n : nat) (s : string) :
  all_chars p s = true -> all_chars p (drop n s) = true.
Proof.
  revert s. induction n as [|n IH]; intros [|c s]; simpl; auto.
  rewrite andb_true_iff. intros [Hc Hs]. auto.
Qed.

Lemma fixed2_format (q : Q) :
  exists int frac,
    fixed2 q = (if Qle_bool 0 q then "" else "-") ++ int ++ "." ++ frac /\
    int <> EmptyString /\ String.length frac = 2%nat /\
    all_chars is_digit int = true /\ all_chars is_digit frac = true.
Proof.
  unfold fixed2.
  destruct (digits_chars (hundredths (Qabs q))) as [Hd _].
  destruct (pad3_chars _ Hd) as [Hm Hlen].
  set (m := pad3 (digits (hundredths (Qabs q)))) in *.
  exists (take (String.length m - 2) m), (drop (String.length m - 2) m).
  split; [reflexivity|]. split.
  - intros Hempty. pose proof (take_length (String.length m - 2) m) as Ht.
    rewrite Hempty in Ht. simpl in Ht. lia.
  - split; [rewrite drop_length; lia|].
    split; [apply all_chars_take|apply all_chars_drop]; exact Hm.
Qed.

(** X15: a finite coordinate of magnitude below 10^21 is written as an
    optional minus sign, at least one digit, a point and exactly two
    digits; the sign is there exactly for a negative value, also when the
    value rounds to zero. An infinite coordinate is written "Infinity" or
    "-Infinity". *)
Theorem locate_coordinate_format (v : jsval) :
  (forall q, ToNumber E v = Finite q -> (Qabs q < inject_Z (10 ^ 21))%Q ->
     exists int frac,
       locate_coordinate E v = (if Qle_bool 0 q then "" else "-") ++ int ++ "." ++ frac /\
       int <> EmptyString /\ String.length frac = 2%nat /\
       all_chars is_digit int = true /\ all_chars is_digit frac = true) /\
  (forall negative, ToNumber E v = Infinity negative ->
     locate_coordinate E v = if negative then "-Infinity" else "Infinity").
Proof.
  split.
  - intros q Hq Hsmall. unfold locate_coordinate, or_zero. rewrite Hq.
    unfold number_truthy. destruct (Qeq_bool q 0) eqn:Hz; simpl.
    + apply Qeq_bool_iff in Hz.
      assert (Qle_bool 0 q = true) as -> by (apply Qle_bool_iff; rewrite Hz; apply Qle_refl).
      exists "0", "00". repeat split; discriminate.
    + destruct (Qle_bool (inject_Z (10 ^ 21)) (Qabs q)) eqn:Hbig.
      * apply Qle_bool_iff in Hbig. exfalso. exact (Qlt_not_le _ _ Hsmall Hbig).
      * apply fixed2_format.
  - intros negative Hv. unfold locate_coordinate, or_zero. rewrite Hv. reflexivity.
Qed.

End CoordinateFacts.

(** *** checkStoreStock and its route *)

Section StockOutcomes.

Variable E : environment.

Lemma checkStoreStock_Throw (styleCode size storeId quantity : jsval) (w : world)
  (e : js_error) :
  fst (checkStoreStock E styleCode size storeId quantity w) = Throw e ->
  stock_reply E styleCode size storeId quantity w = Throw e \/
  e = TypeError \/ e = JsError "Product unavailable".
Proof.
  rewrite checkStoreStock_run. cbn [fst].
  destruct (stock_reply E styleCode size storeId quantity w) as [payload|e0];
    [|intros [= <-]; left; reflexivity].
  destruct (get_prop payload "_prod_sNo_Stock") as [field|e0] eqn:Hfield.
  - destruct (truthy field); [discriminate|].
    intros [= <-]. right. right. reflexivity.
  - intros [= <-]. right. left. exact (get_prop_Throw _ _ _ Hfield).
Qed.

(** X16: checkStoreStock fails with the rejection of the request, with a
    TypeError (exactly when the decoded payload is [null] or [undefined]),
    or with the error "Product unavailable". The four fields of a result
    are the properties HasStock, StoreName, StoreNo and StoreAddress of the
    confirming field, each [undefined] when the field has no such
    property; when the confirming field is truthy but not an object, all
    four are [undefined]. *)
Theorem checkStoreStock_outcomes (styleCode size storeId quantity : jsval) (w : world) :
  let r := checkStoreStock E styleCode size storeId quantity w in
  let reply := stock_reply E styleCode size storeId quantity w in
  (forall e, fst r = Throw e ->
     reply = Throw e \/
     (e = TypeError /\ (reply = Return JNull \/ reply = Return JUndefined)) \/
     e = JsError "Product unavailable") /\
  (reply = Return JNull \/ reply = Return JUndefined -> fst r = Throw TypeError) /\
  (forall result, fst r = Return result ->
     exists payload field,
       reply = Return payload /\
       get_prop payload "_prod_sNo_Stock" = Return field /\
       truthy field = true /\
       result = StockCheckResult.mk
                  (default JUndefined (field_of field "HasStock"))
                  (default JUndefined (field_of field "StoreName"))
                  (default JUndefined (field_of field "StoreNo"))
                  (default JUndefined (field_of field "StoreAddress")) /\
       ((forall fields, field <> JObj fields) ->
        result = StockCheckResult.mk JUndefined JUndefined JUndefined JUndefined)).
Proof.
  cbv zeta. rewrite checkStoreStock_run. cbn [fst].
  destruct (stock_reply E styleCode size storeId quantity w) as [payload|e0].
  2:{ split; [intros e [= <-]; left; reflexivity|].
      split; [intros [H|H]; discriminate|discriminate]. }
  destruct (get_prop payload "_prod_sNo_Stock") as [field|e0] eqn:Hfield.
  2:{ destruct payload; simpl in Hfield; try discriminate;
        injection Hfield as <-;
        (split;
         [intros e [= <-]; right; left; split; [reflexivity|]; auto
         |split; [reflexivity|discriminate]]). }
  destruct (truthy field) eqn:Ht.
  - split; [discriminate|]. split.
    + intros [[= ->]|[= ->]]; discriminate.
    + intros result [= <-]. exists payload, field.
      split; [reflexivity|]. split; [exact Hfield|]. split; [exact Ht|].
      split; [reflexivity|].
      intros Hobj. destruct field; try reflexivity. exfalso. eapply Hobj. reflexivity.
  - split; [intros e [= <-]; right; right; reflexivity|].
    split; [|discriminate].
    intros [[= ->]|[= ->]]; discriminate.
Qed.

Lemma length_app_string (s t : string) :
  String.length (s ++ t) = (String.length s + String.length t)%nat.
Proof. induction s as [|c s IH]; simpl; [reflexivity|]. rewrite IH. reflexivity. Qed.

Lemma take_drop (n : nat) (s : string) : take n s ++ drop n s = s.
Proof.
  revert s. induction n as [|n IH]; intros [|c s]; simpl; auto.
  change (String c (take n s ++ drop n s) = String c s). rewrite IH. reflexivity.
Qed.

(** X17: the stock route sends, as the identifier of the size, the first
    five characters of the code in the path followed by its last three, and
    the store of the path as it is. That identifier is the code of the
    path exactly when the code has eight characters (or none): a longer
    code loses its middle, and in a shorter one the two parts overlap. *)
Theorem stockRoute_size_id (storeId styleCode : string) (quantity : jsval) (w : world) :
  events_since w (snd (stockRoute E storeId styleCode quantity w))
  = [EvPost (stock_url E)
       (StoreStockAjaxRequest storeId
          (take 5 styleCode ++ last_chars 3 styleCode)
          (ToString E (quantity_or_one (JNum (routeQuantity E quantity))))
          "true" "getStoreStock")] /\
  (take 5 styleCode ++ last_chars 3 styleCode = styleCode <->
   String.length styleCode = 8%nat \/ styleCode = EmptyString) /\
  (String.length (take 5 styleCode ++ last_chars 3 styleCode) <= 8)%nat.
Proof.
  split; [|split].
  - apply events_since_app. unfold stockRoute. rewrite checkStoreStock_run. reflexivity.
  - split.
    + intros Heq. apply (f_equal String.length) in Heq.
      rewrite length_app_string, take_length, last_chars_length in Heq.
      destruct styleCode as [|c s]; [right; reflexivity|left].
      simpl String.length in *. lia.
    + intros [Hlen| ->]; [|reflexivity].
      unfold last_chars. rewrite Hlen. apply take_drop.
  - rewrite length_app_string, take_length, last_chars_length. lia.
Qed.

Lemma inject_Z_truthy (k : Z) : 1 <= k -> number_truthy (Finite (inject_Z k)) = true.
Proof.
  intros Hk. unfold number_truthy. destruct (Qeq_bool (inject_Z k) 0) eqn:Hz; [|reflexivity].
  apply Qeq_bool_iff in Hz. unfold Qeq in Hz. simpl in Hz. lia.
Qed.

(** X18: the quantity the stock route passes on is never below 1 and never
    fractional: it is a whole number of at least 1, or Infinity when the
    query gives Infinity. A quantity that is absent or not a number is
    sent as 1; so is a quantity of at most 1, zero and the negative ones
    included, and -Infinity; a quantity above 1 is rounded down. *)
Theorem stockRoute_quantity (quantity : jsval) :
  exists n,
    quantity_or_one (quantity_default (JNum (routeQuantity E quantity))) = JNum n /\
    ((exists k, n = Finite (inject_Z k) /\ 1 <= k) \/
     (n = Infinity false /\ ToNumber E quantity = Infinity false)) /\
    (ToNumber E quantity = NaN -> n = Finite 1) /\
    (forall q, ToNumber E quantity = Finite q -> (q <= 1)%Q -> n = Finite 1) /\
    (ToNumber E quantity = Infinity true -> n = Finite 1) /\
    (forall q, ToNumber E quantity = Finite q -> (1 < q)%Q ->
       n = Finite (inject_Z (Qfloor q))).
Proof.
  unfold routeQuantity, quantity_default. cbn [is_undefined].
  assert (quantity_or_one (JNum (Finite (inject_Z 1))) = JNum (Finite (inject_Z 1)))
    as Hone by reflexivity.
  destruct (ToNumber E quantity) as [|negative|q] eqn:Hq.
  - exists (Finite 1). split; [reflexivity|]. split; [left; exists 1; split; [reflexivity|lia]|].
    split; [reflexivity|]. split; [discriminate|]. split; discriminate.
  - destruct negative.
    + exists (Finite 1). split; [reflexivity|].
      split; [left; exists 1; split; [reflexivity|lia]|]. split; [discriminate|].
      split; [discriminate|]. split; [reflexivity|discriminate].
    + exists (Infinity false). split; [reflexivity|]. split; [right; split; reflexivity|].
      split; [discriminate|]. split; [discriminate|]. split; discriminate.
  - cbn [Math_max_1]. destruct (Qle_bool q 1) eqn:Hle.
    + exists (Finite 1). split; [reflexivity|].
      split; [left; exists 1; split; [reflexivity|lia]|]. split; [discriminate|].
      split; [reflexivity|]. split; [discriminate|].
      intros q' [= <-] Hlt. apply Qle_bool_iff in Hle. lra.
    + assert (1 <= Qfloor q) as Hk.
      { change 1 with (Qfloor 1). apply Qfloor_resp_le.
        destruct (Qlt_le_dec 1 q) as [H|H]; [apply Qlt_le_weak, H|].
        apply Qle_bool_iff in H. congruence. }
      exists (Finite (inject_Z (Qfloor q))). cbn [Math_floor].
      split; [unfold quantity_or_one; cbn [truthy]; rewrite (inject_Z_truthy _ Hk);
              reflexivity|].
      split; [left; eauto|]. split; [discriminate|].
      split; [intros q' [= <-] Hle'; apply Qle_bool_iff in Hle'; congruence|].
      split; [discriminate|].
      intros q' [= <-] _. reflexivity.
Qed.

End StockOutcomes.

(** *** routes/index.js *)

Section MountFacts.

Lemma split_on_app (sep : ascii -> bool) (a b : string) (c : ascii) :
  sep c = true ->
  split_on sep (a ++ String c b) = (split_on sep a ++ split_on sep b)%list.
Proof.
  intros Hc. induction a as [|x a IH]; simpl.
  - rewrite Hc. reflexivity.
  - rewrite IH. destruct (sep x); [reflexivity|].
    pose proof (split_on_nonempty sep a) as Hne.
    destruct (split_on sep a) as [|w ws]; [congruence|reflexivity].
Qed.

Lemma split_on_none (sep : ascii -> bool) (s : string) :
  all_chars (fun c => negb (sep c)) s = true -> split_on sep s = [s].
Proof.
  induction s as [|x s IH]; simpl; [reflexivity|].
  rewrite andb_true_iff, negb_true_iff. intros [-> Hs]. rewrite (IH Hs). reflexivity.
Qed.

(** X19: a file is mounted under its name without the last extension, a
    file without a dot under the empty name (the root), a directory under
    its own name; index.js is never mounted, and every mount point comes
    from one entry of the directory. *)
Theorem routeName_strips_extension :
  (forall base ext,
     all_chars (fun c => negb (is_dot c)) ext = true ->
     routeName (mk_dirent (base ++ "." ++ ext) true) = base) /\
  (forall name,
     all_chars (fun c => negb (is_dot c)) name = true ->
     routeName (mk_dirent name true) = EmptyString) /\
  (forall name, routeName (mk_dirent name false) = name) /\
  (forall files route module,
     In (route, module) (mountPoints files) ->
     module <> "index.js" /\
     exists file, In file files /\ module = d_name file
                  /\ route = "/" ++ routeName file).
Proof.
  split; [|split; [|split]].
  - intros base ext Hext. unfold routeName. cbn [d_isFile d_name].
    change (base ++ "." ++ ext) with (base ++ String "."%char ext).
    rewrite (split_on_app is_dot base ext "."%char eq_refl).
    rewrite (split_on_none is_dot ext Hext), removelast_last.
    apply (join_split_on is_dot "."%char dot_char).
  - intros name Hname. unfold routeName. cbn [d_isFile d_name].
    rewrite (split_on_none is_dot name Hname). reflexivity.
  - intros name. reflexivity.
  - intros files route module Hin. unfold mountPoints in Hin.
    apply in_map_iff in Hin. destruct Hin as (file & [= <- <-] & Hfile).
    apply filter_In in Hfile. destruct Hfile as [Hfile Hname]. split.
    + intros Heq. rewrite Heq in Hname. discriminate.
    + exists file. repeat split. exact Hfile.
Qed.

End MountFacts.

(** *** What the routes answer *)

Section RouteFacts.

Variable E : environment.


End RouteFacts.

(** *** The further properties at concrete inputs *)

Lemma parsed_texts_trimmed_witness :
  trim (Product.name example_product) = Product.name example_product /\
  Product.categories example_product = ["Mens"; "Shoes"].
Proof.
  destruct (parsed_texts_trimmed (example_environment no_post no_page)
              example_page example_product) as (Hname & _);
    [vm_compute; reflexivity|].
  split; [exact Hname|reflexivity].
Defined.

Lemma parsed_size_range_witness :
  List.Forall2
    (fun li entry => SizeEntry.code entry = last_chars 3 (trim (Dom.li_data_id li)))
    (Dom.size_selector example_page) (Product.sizeRange example_product).
Proof.
  pose proof (parsed_size_range (example_environment no_post no_page)
                example_page example_product) as H.
  eapply List.Forall2_impl; [|apply H; vm_compute; reflexivity].
  intros li entry (_ & _ & _ & Hcode & _). exact Hcode.
Defined.

Lemma parsed_offers_in_order_witness :
  (List.length (Product.offers example_product)
   <= List.length (Dom.offer_badges example_page))%nat.
Proof.
  apply (parsed_offers_in_order (example_environment no_post no_page)
           example_page example_product).
  vm_compute. reflexivity.
Defined.

Lemma fetchWebpage_serves_fresh_entries_witness :
  let E0 := example_environment no_post no_page in
  let w0 := mk_world ∅ ∅ {[ "page@sz:/products/product-15070"
                             := mk_entry 1595000000000 example_product ]} ∅ [] in
  fst (fetchWebpage E0 "/Products/Product-15070" 60000 w0)
  = Return (FromCache example_product).
Proof.
  cbv zeta.
  apply (proj1 (fetchWebpage_serves_fresh_entries
                  (example_environment no_post no_page)
                  "/Products/Product-15070" 60000
                  (mk_world ∅ ∅ {[ "page@sz:/products/product-15070"
                                    := mk_entry 1595000000000 example_product ]} ∅ [])
                  ltac:(discriminate))).
  exists (mk_entry 1595000000000 example_product).
  split; [vm_compute; reflexivity|].
  split; [split; vm_compute; [discriminate|reflexivity]|reflexivity].
Defined.

Lemma getProductInfo_base_code_witness :
  let E0 := example_environment no_post (fun _ _ => Return example_page) in
  getProductInfo E0 "15070" JUndefined empty_world
  = getProductInfo E0 "15070040" JUndefined empty_world.
Proof.
  cbv zeta.
  apply (getProductInfo_base_code
           (example_environment no_post (fun _ _ => Return example_page))
           "15070040" JUndefined empty_world).
  simpl. lia.
Defined.

Lemma locateStore_reads_its_write_witness :
  let E0 := example_environment (fun _ _ _ => Return found_payload) no_page in
  let w1 := snd (locateStore E0 JUndefined JUndefined JUndefined (JStr "GL1 1PA")
                   empty_world) in
  fst (locateStore E0 JUndefined JUndefined JUndefined (JStr "gl1 1pa") w1)
  = Return found_store.
Proof.
  cbv zeta.
  destruct (locateStore_reads_its_write
              (example_environment (fun _ _ _ => Return found_payload) no_page)
              JUndefined JUndefined JUndefined (JStr "GL1 1PA") empty_world
              found_store) as [_ Hagain]; [vm_compute; reflexivity|].
  rewrite (Hagain JUndefined JUndefined JUndefined (JStr "gl1 1pa"));
    [reflexivity|vm_compute; reflexivity].
Defined.

Lemma toStore_shape_witness :
  let E0 := example_environment no_post no_page in
  toStore E0 (JObj [("DisplayLine1", JStr "")]) = Throw TypeError /\
  toStore E0 (JObj [("DisplayLine1", JStr "GLOUCESTER  EASTGATE")]) = Throw TypeError /\
  toStore E0 (JObj [("DisplayLine1", JStr "GLOUCESTER ")]) = Throw TypeError /\
  toStore E0 (JObj [("DisplayLine1", JStr " GLOUCESTER")]) = Throw TypeError.
Proof.
  cbv zeta.
  pose proof (fun data => proj2 (toStore_shape (example_environment no_post no_page) data))
    as H.
  repeat split; eapply H; try reflexivity; vm_compute; auto.
Defined.




Lemma locate_key_normalised_witness :
  let E0 := example_environment no_post no_page in
  locate_key E0 example_lat example_lon (JStr "Gloucester") (JStr "gl1 1pa")
  = locate_key E0 example_lat example_lon (JStr "GLOUCESTER") (JStr "GL1 1PA").
Proof.
  cbv zeta.
  apply (proj1 (proj2 (locate_key_normalised (example_environment no_post no_page))));
    reflexivity.
Defined.

Lemma stockRoute_quantity_witness :
  let E0 := example_environment no_post no_page in
  exists n,
    quantity_or_one (quantity_default (JNum (routeQuantity E0 (JNum (Finite 0))))) = JNum n /\
    n = Finite 1.
Proof.
  cbv zeta.
  destruct (stockRoute_quantity (example_environment no_post no_page) (JNum (Finite 0)))
    as (n & Hn & _ & _ & Hle & _).
  exists n. split; [exact Hn|].
  apply (Hle 0%Q); [reflexivity|discriminate].
Defined.
